(** * Products REST API service: a shallow embedding of [service/routes.py]

    The route handlers of [service/routes.py] are embedded as computations
    in a small state-and-exception monad over the application state (the
    persistent store of products and the application log).  The [Product]
    model class they call ([service/models.py]) is modelled from the
    specification; every definition that is so says it in its comment. *)

From Stdlib Require Import ZArith NArith String Ascii Lia.
From Stdlib Require Import Decimal DecimalString DecimalN DecimalZ DecimalPos.
From stdpp Require Import gmap strings list fin_maps.

#[local] Set Warnings "-register-all".
#[local] Open Scope Z_scope.
#[local] Open Scope string_scope.

(** ** Python values *)

(** [str(n)] for a Python [int]. *)
Definition str_int (n : Z) : string := NilZero.string_of_int (Z.to_int n).

(** The value [json.loads] builds, which is also what [jsonify] takes:
    [None], [bool], [int], [float], [str], [list] and [dict] with string
    keys.  A [float] is carried as its binary64 bit pattern; nothing in the
    service computes with it. *)
Inductive json : Type :=
| JNull
| JBool (b : bool)
| JInt (n : Z)
| JFloat (bits : Z)
| JStr (s : string)
| JArr (items : list json)
| JObj (members : gmap string json).

(** [data[key]] on a parsed body; [None] stands for the [KeyError] (on a
    [dict]) or the [TypeError] (on anything else) that Python raises. *)
Definition getitem (data : json) (key : string) : option json :=
  match data with
  | JObj members => members !! key
  | _ => None
  end.

(** ** Decimal prices

    The [price] attribute belongs to [service/models.py], which is not part
    of the sources; this module is its model.  The spec calls the price a
    "decimal number" that travels as "number-as-string-or-decimal", and its
    sample payload carries ["price":"9.99"]. *)
Module Price.

(** Modelled from the spec: the "decimal number" of the data model, as a
    fixed-point decimal [unscaled * 10^(-scale)]. *)
Record Decimal : Type := mkDecimal { unscaled : Z; scale : nat }.

(** Modelled from the spec: the character of a decimal digit. *)
Definition digit (n : N) : ascii := ascii_of_N (48 + n).

(** Modelled from the spec: the digit a character stands for, if any. *)
Definition digit_val (c : ascii) : option N :=
  let n := N_of_ascii c in
  if ((48 <=? n) && (n <=? 57))%N then Some (n - 48)%N else None.

(** Modelled from the spec: the [k] low decimal digits of [r], written in
    front of [acc]. *)
Fixpoint frac_digits (k : nat) (r : N) (acc : string) : string :=
  match k with
  | O => acc
  | S k' => frac_digits k' (r / 10)%N (String (digit (r mod 10)%N) acc)
  end.

(** Modelled from the spec: the value of a run of decimal digits, most
    significant first. *)
Fixpoint digits_value (s : string) (acc : N) : option N :=
  match s with
  | EmptyString => Some acc
  | String c s' =>
      match digit_val c with
      | Some d => digits_value s' (10 * acc + d)%N
      | None => None
      end
  end.

(** Modelled from the spec: a natural number in decimal, without leading
    zeros. *)
Definition str_N (n : N) : string := NilZero.string_of_uint (N.to_uint n).

(** Modelled from the spec: a non-empty run of digits as a number. *)
Definition parse_N (s : string) : option N :=
  match NilZero.uint_of_string s with
  | Some d => Some (N.of_uint d)
  | None => None
  end.

(** Modelled from the spec: the price as "number-as-string", in plain
    notation with exactly [scale] digits after the point ([str(price)]). *)
Definition to_string (d : Decimal) : string :=
  let u := Z.abs_N (unscaled d) in
  let p := (10 ^ N.of_nat (scale d))%N in
  (if (unscaled d <? 0)%Z then "-" else "") ++
  str_N (u / p)%N ++
  match scale d with
  | O => ""
  | S _ => String "." (frac_digits (scale d) (u mod p)%N "")
  end.

(** Modelled from the spec: a string cut at its first point. *)
Fixpoint split_point (s : string) : string * option string :=
  match s with
  | EmptyString => (EmptyString, None)
  | String c s' =>
      if Ascii.eqb c "." then (EmptyString, Some s')
      else let '(a, b) := split_point s' in (String c a, b)
  end.

(** Modelled from the spec: a leading sign taken off. *)
Definition strip_sign (s : string) : bool * string :=
  match s with
  | String c s' =>
      if Ascii.eqb c "-" then (true, s')
      else if Ascii.eqb c "+" then (false, s')
      else (false, s)
  | EmptyString => (false, s)
  end.

(** Modelled from the spec: a magnitude with its sign. *)
Definition signed (neg : bool) (n : N) : Z :=
  if neg then Z.opp (Z.of_N n) else Z.of_N n.

(** Modelled from the spec: the decimal a "number-as-string" denotes
    ([Decimal(text)]): an optional sign, digits, and optionally a point
    followed by digits.  [None] is the conversion error. *)
Definition of_string (s : string) : option Decimal :=
  let '(neg, body) := strip_sign s in
  let '(ip, fp) := split_point body in
  match parse_N ip with
  | None => None
  | Some i =>
      match fp with
      | None => Some (mkDecimal (signed neg i) 0)
      | Some f =>
          match digits_value f 0 with
          | None => None
          | Some r =>
              let k := String.length f in
              Some (mkDecimal (signed neg (i * 10 ^ N.of_nat k + r)%N) k)
          end
      end
  end.

End Price.

(** ** Exceptions

    [abort(code, description)] raises werkzeug's [HTTPException];
    [DataValidationError] is the model's own exception; [BuildError] is
    what [url_for] raises when a URL variable has no value. *)
Inductive Exn : Type :=
| HTTPException (code : Z) (description : string)
| DataValidationError (message : string)
| BuildError (endpoint : string).

(** werkzeug's [NotFound] and [MethodNotAllowed], which the router raises,
    with the descriptions they carry. *)
Definition NotFound : Exn :=
  HTTPException 404
    "The requested URL was not found on the server. If you entered the URL manually please check your spelling and try again.".

Definition MethodNotAllowed : Exn :=
  HTTPException 405 "The method is not allowed for the requested URL.".

Inductive Result (A : Type) : Type :=
| Ok (a : A)
| Raise (e : Exn).
Arguments Ok {A} a.
Arguments Raise {A} e.

#[global] Instance Result_ret : MRet Result := fun A a => Ok a.
#[global] Instance Result_bind : MBind Result := fun A B f m =>
  match m with
  | Ok a => f a
  | Raise e => Raise e
  end.

(** ** The Product model

    The class [Product] belongs to [service/models.py], which is not part
    of the sources; the handlers use its constructor and its methods
    [serialize], [deserialize], [create], [update] and [find].  This module
    is its model. *)
Module Product.

(** Modelled from the spec: the attributes of the data model.  [id] is
    "assigned by the persistence layer on creation (auto-increment)";
    [name] and [price] are required; [sku] and [description] are strings,
    required as well, since the spec settles omitted fields with "treat as
    required for this spec"; [image_url] is optional.  As on a Python
    object, an attribute that was never assigned is [None]. *)
Record t : Type := mk {
  id : option Z;
  name : option string;
  sku : option string;
  description : option string;
  price : option Price.Decimal;
  image_url : option string
}.

(** Modelled from the spec: [Product()], the transient instance a handler
    starts from ("constructed transiently by a handler"). *)
Definition new : t := mk None None None None None None.

(** Modelled from the spec: a valid product has its required attributes
    ([name], [sku], [description], [price]) set. *)
Definition valid (self : t) : Prop :=
  is_Some (name self) /\ is_Some (sku self) /\ is_Some (description self)
  /\ is_Some (price self).

(** Modelled from the spec: an attribute on the wire; [None] travels as
    [null]. *)
Definition opt_json {A} (f : A -> json) (o : option A) : json :=
  match o with
  | Some a => f a
  | None => JNull
  end.

(** Modelled from the spec: "Serialized Product JSON shape: {id: integer,
    name: string, sku: string, description: string, price:
    number-as-string-or-decimal, image_url: string}". *)
Definition serialize (self : t) : json :=
  JObj (<["id" := opt_json JInt (id self)]>
       (<["name" := opt_json JStr (name self)]>
       (<["sku" := opt_json JStr (sku self)]>
       (<["description" := opt_json JStr (description self)]>
       (<["price" := opt_json (fun d => JStr (Price.to_string d)) (price self)]>
       (<["image_url" := opt_json JStr (image_url self)]> ∅)))))).

(** Modelled from the spec: the validation error for a "missing required
    field"; the "message describes the offending field". *)
Definition missing (key : string) : Exn :=
  DataValidationError ("Invalid Product: missing " ++ key).

(** Modelled from the spec: the validation error for a "wrong type". *)
Definition bad_type (key : string) : Exn :=
  DataValidationError ("Invalid Product: bad value for " ++ key).

(** Modelled from the spec: a required string attribute read from the
    body. *)
Definition str_field (data : json) (key : string) : Result string :=
  match getitem data key with
  | None => Raise (missing key)
  | Some (JStr s) => Ok s
  | Some _ => Raise (bad_type key)
  end.

(** Modelled from the spec: the required price read from the body, a
    "number-as-string-or-decimal": a decimal in a string, or an integer. *)
Definition price_field (data : json) (key : string) : Result Price.Decimal :=
  match getitem data key with
  | None => Raise (missing key)
  | Some (JStr s) =>
      match Price.of_string s with
      | Some d => Ok d
      | None => Raise (bad_type key)
      end
  | Some (JInt n) => Ok (Price.mkDecimal n 0)
  | Some _ => Raise (bad_type key)
  end.

(** Modelled from the spec: an optional string attribute read from the
    body.  A key that is left out keeps the value [prior] ("fields omitted
    from the request body retain prior values" unless required); [null]
    clears it. *)
Definition opt_str_field (data : json) (key : string) (prior : option string)
  : Result (option string) :=
  match getitem data key with
  | None => Ok prior
  | Some JNull => Ok None
  | Some (JStr s) => Ok (Some s)
  | Some _ => Raise (bad_type key)
  end.

(** Modelled from the spec: "[deserialize] must populate all required
    fields from an input mapping or fail with a validation error; it does
    not set [id] (server-assigned)"; a failure is a "missing required field"
    or a "wrong type". *)
Definition deserialize (self : t) (data : json) : Result t :=
  match data with
  | JObj _ =>
      n ← str_field data "name";
      s ← str_field data "sku";
      d ← str_field data "description";
      p ← price_field data "price";
      u ← opt_str_field data "image_url" (image_url self);
      mret (mk (id self) (Some n) (Some s) (Some d) (Some p) u)
  | _ =>
      Raise (DataValidationError
               "Invalid Product: body of request contained bad or no data")
  end.

(** Modelled from the spec: the persistence layer, which "owns the durable
    record identified by [id]": the table of products by primary key, and
    the sequence the auto-increment keys are drawn from. *)
Record Database : Type := mkDatabase {
  rows : gmap Z t;
  last_id : Z
}.

(** Modelled from the spec: "[id] is unique across all persisted
    products".  Every row carries its own key, and no key is ahead of the
    sequence. *)
Definition wf (db : Database) : Prop :=
  forall i p, rows db !! i = Some p -> id p = Some i /\ i <= last_id db.

(** Modelled from the spec: "find(id) -> Product|absent". *)
Definition find (by_id : Z) (db : Database) : option t :=
  rows db !! by_id.

(** Modelled from the spec: the product once the store has assigned its
    id. *)
Definition with_id (self : t) (i : Z) : t :=
  mk (Some i) (name self) (sku self) (description self) (price self)
     (image_url self).

(** Modelled from the spec: "create() -> assigns id" ("auto-increment"),
    "writes to the store". *)
Definition create (self : t) (db : Database) : t * Database :=
  let i := last_id db + 1 in
  let self' := with_id self i in
  (self', mkDatabase (<[i := self']> (rows db)) i).

(** Modelled from the spec: "update() -> rewrites by id" ("rewrites an
    existing row by id").  Without an id there is no row to rewrite. *)
Definition update (self : t) (db : Database) : Result unit * Database :=
  match id self with
  | Some i => (Ok tt, mkDatabase (<[i := self]> (rows db)) (last_id db))
  | None =>
      (Raise (DataValidationError "Update called with empty ID field"), db)
  end.

End Product.

(** ** Application state and the handler monad *)

Inductive Level : Type := INFO | ERROR.

(** A log record keeps the format string and its arguments apart, as
    [logging] does. *)
Record LogRecord : Type := mkLog {
  level : Level;
  msg : string;
  args : list json
}.

Record App : Type := mkApp {
  db : Product.Database;
  log : list LogRecord
}.

(** A handler runs on the application state and returns or raises. *)
Definition M (A : Type) : Type := App -> Result A * App.

#[global] Instance M_ret : MRet M := fun A a app => (Ok a, app).
#[global] Instance M_bind : MBind M := fun A B f m app =>
  match m app with
  | (Ok a, app') => f a app'
  | (Raise e, app') => (Raise e, app')
  end.

Definition raise {A} (e : Exn) : M A := fun app => (Raise e, app).

(** [abort(code, description)] *)
Definition abort {A} (code : Z) (description : string) : M A :=
  raise (HTTPException code description).

Definition emit (l : Level) (fmt : string) (a : list json) : M unit :=
  fun app => (Ok tt, mkApp (db app) (log app ++ [mkLog l fmt a])).

(** [app.logger.info(fmt, *args)] and [app.logger.error(fmt, *args)] *)
Definition logger_info (fmt : string) (a : list json) : M unit := emit INFO fmt a.
Definition logger_error (fmt : string) (a : list json) : M unit := emit ERROR fmt a.

Definition lift_result {A} (r : Result A) : M A := fun app => (r, app).

(** [Product.find(by_id)] against the application's database. *)
Definition Product_find (by_id : Z) : M (option Product.t) :=
  fun app => (Ok (Product.find by_id (db app)), app).

(** [product.create()] against the application's database. *)
Definition Product_create (self : Product.t) : M Product.t :=
  fun app =>
    let '(self', db') := Product.create self (db app) in
    (Ok self', mkApp db' (log app)).

(** [product.update()] against the application's database. *)
Definition Product_update (self : Product.t) : M unit :=
  fun app =>
    let '(r, db') := Product.update self (db app) in
    (r, mkApp db' (log app)).

(** Modelled from the spec: the status constants of
    [service/common/status.py] (not part of the sources), with the codes
    the spec gives for each outcome. *)
Definition HTTP_200_OK : Z := 200.
Definition HTTP_201_CREATED : Z := 201.
Definition HTTP_400_BAD_REQUEST : Z := 400.
Definition HTTP_404_NOT_FOUND : Z := 404.
Definition HTTP_415_UNSUPPORTED_MEDIA_TYPE : Z := 415.

(** ** Requests, responses and the URL map *)

(** The request methods the model covers.  [HEAD] and [OPTIONS] are not
    among them: Flask answers a [HEAD] request by running the view of [GET]
    and sending the reply without its body, and an [OPTIONS] request by
    itself, with an [Allow] header it builds from an unordered set.  A
    statement that ranges over methods ranges over these five. *)
Inductive Method : Type := GET | POST | PUT | PATCH | DELETE.

#[global] Instance Method_eq_dec : EqDecision Method.
Proof. solve_decision. Defined.

(** What a handler reads from Flask's [request]: the header mapping, keyed
    by the canonical spelling of the field name, and the outcome of parsing
    the body as JSON ([None]: the body is not valid JSON), with the method,
    path, scheme and host the router and [url_for] use. *)
Record Request : Type := mkRequest {
  method : Method;
  path : string;
  url_scheme : string;
  host : string;
  headers : gmap string string;
  json_body : option json
}.

(** What a view function returns: [(jsonify(body), status, headers)]. *)
Record Response : Type := mkResponse {
  body : json;
  status : Z;
  response_headers : gmap string string
}.

(** A piece of a URL rule between slashes: fixed text, or an [<int:name>]
    converter. *)
Inductive Segment : Type :=
| Static (text : string)
| IntConverter (variable : string).

(** A URL rule: its pieces, the methods it accepts, and the endpoint (the
    name of the view function) it leads to. *)
Record Rule : Type := mkRule {
  rule : list Segment;
  methods : list Method;
  endpoint : string
}.

(** The four [@app.route] decorators of [routes.py]; a route without
    [methods] accepts [GET]. *)
Definition url_map : list Rule :=
  [ mkRule [Static ""] [GET] "index";
    mkRule [Static "products"] [POST] "create_products";
    mkRule [Static "products"; IntConverter "product_id"] [GET] "get_products";
    mkRule [Static "products"; IntConverter "product_id"] [PUT] "update_products" ].

(** A path into the pieces after each slash. *)
Fixpoint split_slash (s : string) : list string :=
  match s with
  | EmptyString => [EmptyString]
  | String c s' =>
      if Ascii.eqb c "/" then EmptyString :: split_slash s'
      else match split_slash s' with
           | x :: xs => String c x :: xs
           | [] => [String c EmptyString]
           end
  end.

(** [path.lstrip("/")]: werkzeug matches a path from its first character
    that is not a slash. *)
Fixpoint lstrip_slash (s : string) : string :=
  match s with
  | String c s' => if Ascii.eqb c "/" then lstrip_slash s' else s
  | EmptyString => EmptyString
  end.

(** The pieces of a request path, after its leading slashes. *)
Definition segments (p : string) : option (list string) :=
  match p with
  | String _ _ => Some (split_slash (lstrip_slash p))
  | EmptyString => None
  end.

(** The [int] converter accepts a non-empty run of digits and reads it in
    decimal, leading zeros included.  The path is taken as ASCII text:
    werkzeug also accepts the decimal digits of other scripts, which a
    string of bytes does not tell apart. *)
Definition int_to_python (s : string) : option Z :=
  match NilZero.uint_of_string s with
  | Some d => Some (Z.of_uint d)
  | None => None
  end.

Fixpoint match_rule (r : list Segment) (p : list string) : option (list Z) :=
  match r, p with
  | [], [] => Some []
  | Static text :: r', x :: p' =>
      if String.eqb text x then match_rule r' p' else None
  | IntConverter _ :: r', x :: p' =>
      match int_to_python x, match_rule r' p' with
      | Some i, Some vs => Some (i :: vs)
      | _, _ => None
      end
  | _, _ => None
  end.

(** Routing, as werkzeug's map adapter does it on a path without doubled
    slashes: the first rule that matches path and method; when rules match
    the path but none allows the method, [MethodNotAllowed]; when no rule
    matches the path, [NotFound].  (A path with doubled slashes inside is
    tried a second time with the slashes merged, and answered with a
    redirect when that matches; the model stops at the first try.) *)
Fixpoint match_rules (rules : list Rule) (m : Method) (p : list string)
    (have_match : bool) : Result (string * list Z) :=
  match rules with
  | [] =>
      if have_match then Raise MethodNotAllowed else Raise NotFound
  | r :: rules' =>
      match match_rule (rule r) p with
      | Some vs =>
          if bool_decide (m ∈ methods r) then Ok (endpoint r, vs)
          else match_rules rules' m p true
      | None => match_rules rules' m p have_match
      end
  end.

(** The path [url_for] builds for a rule, given the value of
    [product_id]. *)
Fixpoint build (r : list Segment) (product_id : option Z) : option string :=
  match r with
  | [] => Some EmptyString
  | Static text :: r' =>
      match build r' product_id with
      | Some rest => Some ("/" ++ text ++ rest)
      | None => None
      end
  | IntConverter _ :: r' =>
      match product_id, build r' product_id with
      | Some i, Some rest => Some ("/" ++ str_int i ++ rest)
      | _, _ => None
      end
  end.

(** The first rule registered for an endpoint. *)
Definition rule_of (e : string) : option Rule :=
  List.find (fun r => String.eqb (endpoint r) e) url_map.

(** ** The handlers of [routes.py] *)

Section Routes.

(** Flask's context-local [request]. *)
Variable request : Request.

(** [request.get_json()]: the parsed body, or 400 Bad Request when the
    body does not parse.  The handlers call it only after the Content-Type
    guard has passed. *)
Definition get_json : M json :=
  match json_body request with
  | Some data => mret data
  | None =>
      abort HTTP_400_BAD_REQUEST
        "The browser (or proxy) sent a request that this server could not understand."
  end.

(** [url_for(endpoint, product_id=..., _external=...)] *)
Definition url_for (e : string) (product_id : option Z) (_external : bool)
  : M string :=
  match rule_of e with
  | Some r =>
      match build (rule r) product_id with
      | Some p =>
          mret ((if _external then url_scheme request ++ "://" ++ host request
                 else "") ++ p)
      | None => raise (BuildError e)
      end
  | None => raise (BuildError e)
  end.

Definition endpoint_entry (m p d : string) : json :=
  JObj (<["method" := JStr m]>
       (<["path" := JStr p]>
       (<["description" := JStr d]> ∅))).

Definition api_details : json :=
  JObj (<["name" := JStr "Products REST API Service"]>
       (<["version" := JStr "0.1.0"]>
       (<["description" :=
            JStr "This is the products service API. Below is how you use it."]>
       (<["endpoints" := JArr
            [ endpoint_entry "POST" "/products"
                "Creates a new product with the data in the body that is posted";
              endpoint_entry "GET" "/products/<product_id>"
                "Returns a product based on its id";
              endpoint_entry "GET" "/products"
                "Returns a list of all products";
              endpoint_entry "PUT" "/products/<product_id>"
                "Updates a product based on its id with the data in the body that is posted";
              endpoint_entry "DELETE" "/products/<product_id>"
                "Deletes a product based on its id" ]]>
       (<["status" := JStr "online"]> ∅))))).

(** [index]: root URL response. *)
Definition index : M Response :=
  mret (mkResponse api_details HTTP_200_OK ∅).

(** [check_content_type]: checks that the media type is correct. *)
Definition check_content_type (content_type : string) : M unit :=
  match headers request !! "Content-Type" with
  | None =>
      logger_error "No Content-Type specified." [];;
      abort HTTP_415_UNSUPPORTED_MEDIA_TYPE
        ("Content-Type must be " ++ content_type)
  | Some value =>
      if String.eqb value content_type then mret tt
      else
        logger_error "Invalid Content-Type: %s" [JStr value];;
        abort HTTP_415_UNSUPPORTED_MEDIA_TYPE
          ("Content-Type must be " ++ content_type)
  end.

(** [create_products]: create a Product from the data in the body. *)
Definition create_products : M Response :=
  logger_info "Request to Create a Product..." [];;
  check_content_type "application/json";;
  let product := Product.new in
  data ← get_json;
  logger_info "Processing: %s" [data];;
  product ← lift_result (Product.deserialize product data);
  product ← Product_create product;
  logger_info "Product with new id [%s] saved!"
    [Product.opt_json JInt (Product.id product)];;
  location_url ← url_for "get_products" (Product.id product) true;
  mret (mkResponse (Product.serialize product) HTTP_201_CREATED
          {["Location" := location_url]}).

Definition not_found_message (product_id : Z) : string :=
  "Product with id '" ++ str_int product_id ++ "' was not found.".

(** [get_products]: retrieve a single Product. *)
Definition get_products (product_id : Z) : M Response :=
  logger_info "Request to Retrieve a product with id [%s]" [JInt product_id];;
  found ← Product_find product_id;
  match found with
  | None => abort HTTP_404_NOT_FOUND (not_found_message product_id)
  | Some product =>
      logger_info "Returning product: %s"
        [Product.opt_json JStr (Product.name product)];;
      mret (mkResponse (Product.serialize product) HTTP_200_OK ∅)
  end.

(** [update_products]: update a single Product. *)
Definition update_products (product_id : Z) : M Response :=
  logger_info "Request to Update a product with id [%s]" [JInt product_id];;
  found ← Product_find product_id;
  match found with
  | None => abort HTTP_404_NOT_FOUND (not_found_message product_id)
  | Some product =>
      check_content_type "application/json";;
      data ← get_json;
      logger_info "Processing: %s" [data];;
      product ← lift_result (Product.deserialize product data);
      Product_update product;;
      logger_info "Product with id [%s] updated!"
        [Product.opt_json JInt (Product.id product)];;
      mret (mkResponse (Product.serialize product) HTTP_200_OK ∅)
  end.

(** [app.view_functions]: the view registered for an endpoint, applied to
    the values the router extracted from the path. *)
Definition view (e : string) (vs : list Z) : M Response :=
  if String.eqb e "index" then index
  else if String.eqb e "create_products" then create_products
  else match vs with
       | [product_id] =>
           if String.eqb e "get_products" then get_products product_id
           else if String.eqb e "update_products" then update_products product_id
           else raise (BuildError e)
       | _ => raise (BuildError e)
       end.

(** Routing followed by the call of the view. *)
Definition dispatch_request : M Response :=
  match segments (path request) with
  | None => raise NotFound
  | Some p =>
      match match_rules url_map (method request) p false with
      | Ok (e, vs) => view e vs
      | Raise exn => raise exn
      end
  end.

End Routes.

(** Modelled from the spec: the status line of the reply, as the error
    handlers of the service (not part of the sources) set it: "Validation
    error -> HTTP 400".  An [HTTPException] carries its own code; any other
    exception is an internal server error. *)
Definition status_of (r : Result Response) : Z :=
  match r with
  | Ok resp => status resp
  | Raise (HTTPException code _) => code
  | Raise (DataValidationError _) => HTTP_400_BAD_REQUEST
  | Raise (BuildError _) => 500
  end.

(** The whole application on one request. *)
Definition wsgi_app (request : Request) (app : App) : Result Response * App :=
  dispatch_request request app.

(** ** The discovery document against the URL map *)

Definition method_name (m : Method) : string :=
  match m with
  | GET => "GET"
  | POST => "POST"
  | PUT => "PUT"
  | PATCH => "PATCH"
  | DELETE => "DELETE"
  end.

(** A rule as the discovery document writes it: a converter shows as
    [<name>]. *)
Fixpoint doc_path (r : list Segment) : string :=
  match r with
  | [] => EmptyString
  | Static text :: r' => "/" ++ text ++ doc_path r'
  | IntConverter variable :: r' => "/<" ++ variable ++ ">" ++ doc_path r'
  end.

(** What an entry of the discovery document says: its method, path and
    description, when the entry is an object with exactly the three members
    [method], [path] and [description], each a string. *)
Definition entry_fields (e : json) : option (string * string * string) :=
  match e with
  | JObj members =>
      match members !! "method", members !! "path", members !! "description" with
      | Some (JStr m), Some (JStr p), Some (JStr d) =>
          if Nat.eqb (size members) 3 then Some (m, p, d) else None
      | _, _, _ => None
      end
  | _ => None
  end.

(** A visible ASCII character other than the slash. *)
Definition graphic (c : ascii) : Prop :=
  (33 <= nat_of_ascii c <= 126)%nat /\ c <> "/"%char.

(** ** Sample data: the scenarios of the spec *)
Module Sample.

(** A service that has not stored anything yet. *)
Definition app0 : App := mkApp (Product.mkDatabase ∅ 0) [].

(** The body of the spec's example scenario. *)
Definition widget : json :=
  JObj (<["name" := JStr "Widget"]>
       (<["sku" := JStr "AB123CD"]>
       (<["description" := JStr "basic widget"]>
       (<["price" := JStr "9.99"]>
       (<["image_url" := JStr "http://x/img.png"]> ∅))))).

Definition json_header : gmap string string :=
  {["Content-Type" := "application/json"]}.

Definition charset_header : gmap string string :=
  {["Content-Type" := "application/json; charset=utf-8"]}.

Definition req (m : Method) (p : string) (h : gmap string string)
    (b : option json) : Request :=
  mkRequest m p "http" "localhost" h b.

Definition post_widget : Request := req POST "/products" json_header (Some widget).

(** The stored widget, and the service after the example request. *)
Definition widget1 : Product.t :=
  Product.mk (Some 1) (Some "Widget") (Some "AB123CD") (Some "basic widget")
    (Some (Price.mkDecimal 999 2)) (Some "http://x/img.png").

Definition app1 : App := snd (create_products post_widget app0).

(** A replacement body that also carries an [id] and leaves out
    [image_url]. *)
Definition gadget : json :=
  JObj (<["id" := JInt 99]>
       (<["name" := JStr "Gadget"]>
       (<["sku" := JStr "ZZ000ZZ"]>
       (<["description" := JStr "better widget"]>
       (<["price" := JStr "12.50"]> ∅))))).

(** A replacement body whose price is an integer and whose [image_url] is
    [null]. *)
Definition gizmo : json :=
  JObj (<["name" := JStr "Gizmo"]>
       (<["sku" := JStr "GG111GG"]>
       (<["description" := JStr "plain gizmo"]>
       (<["price" := JInt 15]>
       (<["image_url" := JNull]> ∅))))).

Definition gizmo1 : Product.t :=
  Product.mk (Some 1) (Some "Gizmo") (Some "GG111GG") (Some "plain gizmo")
    (Some (Price.mkDecimal 15 0)) None.

Definition gadget1 : Product.t :=
  Product.mk (Some 1) (Some "Gadget") (Some "ZZ000ZZ") (Some "better widget")
    (Some (Price.mkDecimal 1250 2)) (Some "http://x/img.png").

End Sample.

(** ** Requests in sequence, and how a request can end *)

(** The application after a sequence of requests, served one after the
    other. *)
Definition serve (requests : list Request) (app : App) : App :=
  foldl (fun a r => snd (wsgi_app r a)) app requests.

(** The ways a request can end, read off the router and the handlers: what
    is answered, what happens to the store, and which records are added to
    the log.  It serves the proofs by cases on a request. *)
Inductive Outcome (request : Request) (app : App) (r : Result Response)
    (app' : App) (added : list LogRecord) : Prop :=
| ends_routed_out (exn : Exn) :
    exn = NotFound \/ exn = MethodNotAllowed ->
    r = Raise exn -> db app' = db app -> added = [] ->
    Outcome request app r app' added
| ends_not_found (description : string) :
    (method request = GET \/ method request = PUT) ->
    r = Raise (HTTPException 404 description) -> db app' = db app ->
    Forall (fun l => level l = INFO) added ->
    Outcome request app r app' added
| ends_unsupported (l0 l1 : LogRecord) :
    (method request = POST \/ method request = PUT) ->
    headers request !! "Content-Type" <> Some "application/json" ->
    r = Raise (HTTPException 415 "Content-Type must be application/json") ->
    db app' = db app -> added = [l0; l1] -> level l0 = INFO -> level l1 = ERROR ->
    Outcome request app r app' added
| ends_bad_request (exn : Exn) :
    (method request = POST \/ method request = PUT) ->
    headers request !! "Content-Type" = Some "application/json" ->
    r = Raise exn -> status_of r = 400 -> db app' = db app ->
    Forall (fun l => level l = INFO) added ->
    Outcome request app r app' added
| ends_read (resp : Response) :
    method request = GET -> r = Ok resp -> status resp = 200 ->
    response_headers resp = ∅ -> db app' = db app ->
    Forall (fun l => level l = INFO) added ->
    Outcome request app r app' added
| ends_created (resp : Response) (data : json) (product : Product.t) :
    method request = POST ->
    headers request !! "Content-Type" = Some "application/json" ->
    json_body request = Some data ->
    Product.deserialize Product.new data = Ok product ->
    r = Ok resp -> status resp = 201 ->
    is_Some (response_headers resp !! "Location") ->
    db app' = snd (Product.create product (db app)) ->
    Forall (fun l => level l = INFO) added ->
    Outcome request app r app' added
| ends_updated (resp : Response) (data : json) (i : Z) (product product' : Product.t) :
    method request = PUT -> 0 <= i ->
    headers request !! "Content-Type" = Some "application/json" ->
    json_body request = Some data ->
    Product.find i (db app) = Some product ->
    Product.deserialize product data = Ok product' ->
    r = Ok resp -> status resp = 200 -> response_headers resp = ∅ ->
    Product.update product' (db app) = (Ok tt, db app') ->
    Forall (fun l => level l = INFO) added ->
    Outcome request app r app' added.

(** * Properties *)

(** ** Strings of digits *)

Section price_facts.
Import Price.

Lemma digit_val_digit (n : N) : (n < 10)%N -> digit_val (digit n) = Some n.
Proof.
  intros Hn. unfold digit_val, digit.
  rewrite N_ascii_embedding by lia.
  replace ((48 <=? 48 + n)%N) with true by (symmetry; apply N.leb_le; lia).
  replace ((48 + n <=? 57)%N) with true by (symmetry; apply N.leb_le; lia).
  simpl. f_equal. lia.
Qed.

Lemma digits_value_frac (k : nat) : forall (r : N) (acc : string) (a : N),
  digits_value (frac_digits k r acc) a
  = digits_value acc (a * 10 ^ N.of_nat k + r mod 10 ^ N.of_nat k)%N.
Proof.
  induction k as [|k IH]; intros r acc a.
  - simpl. rewrite N.mod_1_r. f_equal. lia.
  - cbn [frac_digits]. rewrite IH. cbn [digits_value].
    rewrite digit_val_digit by (apply N.mod_lt; lia).
    f_equal. rewrite Nat2N.inj_succ, N.pow_succ_r'.
    rewrite (N.Div0.mod_mul_r r 10 (10 ^ N.of_nat k)). lia.
Qed.

Lemma length_frac_digits (k : nat) : forall (r : N) (acc : string),
  String.length (frac_digits k r acc) = (k + String.length acc)%nat.
Proof.
  induction k as [|k IH]; intros r acc; [reflexivity|].
  cbn [frac_digits]. rewrite IH. simpl. lia.
Qed.

Lemma string_app_nil_l (s : string) : "" ++ s = s.
Proof. reflexivity. Qed.

Lemma string_app_cons (c : ascii) (s t : string) : String c s ++ t = String c (s ++ t).
Proof. reflexivity. Qed.

Lemma string_app_nil_r (s : string) : s ++ "" = s.
Proof. induction s as [|c s IH]; [reflexivity|]. now rewrite string_app_cons, IH. Qed.

Lemma split_point_digits (d : uint) (rest : string) :
  split_point (NilEmpty.string_of_uint d ++ rest)
  = (let '(a, b) := split_point rest in (NilEmpty.string_of_uint d ++ a, b)).
Proof.
  induction d; cbn [NilEmpty.string_of_uint]; rewrite ?string_app_cons, ?string_app_nil_l;
    cbn [split_point Ascii.eqb Bool.eqb]; rewrite ?IHd;
    destruct (split_point rest); reflexivity.
Qed.

Lemma to_uint_nonnil (n : N) : N.to_uint n <> Nil.
Proof.
  destruct n as [|p]; [discriminate|]. apply Unsigned.to_uint_nonnil.
Qed.

Lemma str_N_NilEmpty (n : N) : str_N n = NilEmpty.string_of_uint (N.to_uint n).
Proof.
  unfold str_N. pose proof (to_uint_nonnil n). now destruct (N.to_uint n).
Qed.

Lemma split_point_str_N (n : N) (rest : string) :
  split_point (str_N n ++ rest)
  = (let '(a, b) := split_point rest in (str_N n ++ a, b)).
Proof. rewrite str_N_NilEmpty. apply split_point_digits. Qed.

Lemma strip_sign_str_N (n : N) (rest : string) :
  strip_sign (str_N n ++ rest) = (false, str_N n ++ rest).
Proof.
  rewrite str_N_NilEmpty. pose proof (to_uint_nonnil n).
  destruct (N.to_uint n); try reflexivity. congruence.
Qed.

Lemma parse_N_str_N (n : N) : parse_N (str_N n) = Some n.
Proof.
  unfold parse_N, str_N. rewrite NilZero.usu by apply to_uint_nonnil.
  f_equal. apply DecimalN.Unsigned.of_to.
Qed.

Lemma signed_abs (z : Z) : signed (z <? 0)%Z (Z.abs_N z) = z.
Proof.
  unfold signed. destruct (Z.ltb_spec z 0); rewrite N2Z.inj_abs_N; lia.
Qed.

Lemma price_of_to_string (d : Decimal) : of_string (to_string d) = Some d.
Proof.
  destruct d as [z k]. unfold of_string, to_string. cbn [unscaled scale].
  set (u := Z.abs_N z). set (p := (10 ^ N.of_nat k)%N).
  assert (Hs : forall rest, strip_sign ((if (z <? 0)%Z then "-" else "") ++ str_N (u / p) ++ rest)
               = ((z <? 0)%Z, str_N (u / p) ++ rest)).
  { intros rest. destruct (z <? 0)%Z.
    - reflexivity.
    - rewrite string_app_nil_l. apply strip_sign_str_N. }
  rewrite Hs. rewrite split_point_str_N.
  destruct k as [|k].
  - cbn [split_point]. rewrite string_app_nil_r, parse_N_str_N.
    subst p. cbn [N.of_nat]. rewrite N.pow_0_r, N.div_1_r.
    subst u. now rewrite signed_abs.
  - cbn [split_point Ascii.eqb Bool.eqb]. rewrite string_app_nil_r, parse_N_str_N.
    rewrite digits_value_frac. cbn [digits_value].
    rewrite length_frac_digits. cbn [String.length]. rewrite Nat.add_0_r.
    fold p. rewrite N.mul_0_l, N.add_0_l.
    rewrite N.Div0.mod_mod.
    replace (u / p * p + u mod p)%N with u
      by (rewrite (N.Div0.div_mod u p) at 1; lia).
    subst u. now rewrite signed_abs.
Qed.
End price_facts.

Example price_to_string_examples :
  Price.to_string (Price.mkDecimal 999 2) = "9.99"
  /\ Price.to_string (Price.mkDecimal (-5) 3) = "-0.005"
  /\ Price.to_string (Price.mkDecimal 12 0) = "12".
Proof. repeat split. Qed.

Example price_of_string_examples :
  Price.of_string "9.99" = Some (Price.mkDecimal 999 2)
  /\ Price.of_string "12" = Some (Price.mkDecimal 12 0)
  /\ Price.of_string "1,5" = None
  /\ Price.of_string "" = None.
Proof. repeat split. Qed.

Lemma string_app_assoc (a b c : string) : (a ++ b) ++ c = a ++ b ++ c.
Proof.
  induction a as [|x a IH]; [reflexivity|].
  change (String x ((a ++ b) ++ c) = String x (a ++ b ++ c)). now rewrite IH.
Qed.

(** ** The Product model *)

Section model_facts.
Import Product.

Lemma getitem_serialize (self : t) :
  getitem (serialize self) "id" = Some (opt_json JInt (id self))
  /\ getitem (serialize self) "name" = Some (opt_json JStr (name self))
  /\ getitem (serialize self) "sku" = Some (opt_json JStr (sku self))
  /\ getitem (serialize self) "description" = Some (opt_json JStr (description self))
  /\ getitem (serialize self) "price"
     = Some (opt_json (fun d => JStr (Price.to_string d)) (price self))
  /\ getitem (serialize self) "image_url" = Some (opt_json JStr (image_url self)).
Proof. repeat split. Qed.

Lemma str_field_Ok (data : json) (key s : string) :
  str_field data key = Ok s <-> getitem data key = Some (JStr s).
Proof.
  unfold str_field. destruct (getitem data key) as [[]|]; split; congruence.
Qed.

Lemma deserialize_inv (self : t) (data : json) (p : t) :
  deserialize self data = Ok p ->
  id p = id self
  /\ (exists n, getitem data "name" = Some (JStr n) /\ name p = Some n)
  /\ (exists s, getitem data "sku" = Some (JStr s) /\ sku p = Some s)
  /\ (exists d, getitem data "description" = Some (JStr d)
                /\ description p = Some d)
  /\ (exists d, price_field data "price" = Ok d /\ price p = Some d)
  /\ opt_str_field data "image_url" (image_url self) = Ok (image_url p).
Proof.
  unfold deserialize. destruct data; try discriminate.
  unfold mbind, mret, Result_bind, Result_ret.
  destruct (str_field _ "name") as [n|] eqn:En; [|discriminate].
  destruct (str_field _ "sku") as [s|] eqn:Es; [|discriminate].
  destruct (str_field _ "description") as [d|] eqn:Ed; [|discriminate].
  destruct (price_field _ "price") as [pr|]; [|discriminate].
  destruct (opt_str_field _ "image_url" _) as [u|]; [|discriminate].
  intros [= <-]. apply str_field_Ok in En, Es, Ed. cbn.
  repeat split; eauto.
Qed.

Lemma deserialize_echo (self : t) (data : json) (p : t) (key : string) (v : json) :
  deserialize self data = Ok p ->
  key ∈ ["name"; "sku"; "description"; "image_url"] ->
  getitem data key = Some v ->
  getitem (serialize p) key = Some v.
Proof.
  intros Hd Hk Hv. apply deserialize_inv in Hd.
  destruct Hd as (_ & (n & Hn & En) & (s & Hs & Es) & (d & Hde & Ed) & _ & Hu).
  destruct (getitem_serialize p) as (_ & Gn & Gs & Gd & _ & Gu).
  rewrite En in Gn. rewrite Es in Gs. rewrite Ed in Gd.
  rewrite !elem_of_cons in Hk. rewrite elem_of_nil in Hk.
  destruct Hk as [-> | [-> | [-> | [-> | []]]]].
  1-3: cbn [opt_json] in *; congruence.
  rewrite Gu. unfold opt_str_field in Hu. rewrite Hv in Hu.
  destruct v; try discriminate; injection Hu as <-; reflexivity.
Qed.

Lemma deserialize_price (self : t) (data : json) (p : t) (s : string) :
  deserialize self data = Ok p ->
  getitem data "price" = Some (JStr s) ->
  is_Some (Price.of_string s) /\ price p = Price.of_string s.
Proof.
  intros Hd Hv. apply deserialize_inv in Hd.
  destruct Hd as (_ & _ & _ & _ & (d & Hp & ->) & _).
  unfold price_field in Hp. rewrite Hv in Hp.
  destruct (Price.of_string s); [|discriminate]. injection Hp as <-. eauto.
Qed.

Lemma deserialize_keeps_image_url (self : t) (data : json) (p : t) :
  deserialize self data = Ok p ->
  getitem data "image_url" = None ->
  image_url p = image_url self.
Proof.
  intros Hd Hv. apply deserialize_inv in Hd.
  destruct Hd as (_ & _ & _ & _ & _ & Hu).
  unfold opt_str_field in Hu. rewrite Hv in Hu. congruence.
Qed.

(** A body with the required members of the right types deserializes. *)
Lemma deserialize_total (self : t) (members : gmap string json)
    (n s d : string) (pr : Price.Decimal) (u : option string) :
  members !! "name" = Some (JStr n) ->
  members !! "sku" = Some (JStr s) ->
  members !! "description" = Some (JStr d) ->
  price_field (JObj members) "price" = Ok pr ->
  opt_str_field (JObj members) "image_url" (image_url self) = Ok u ->
  deserialize self (JObj members)
  = Ok (mk (id self) (Some n) (Some s) (Some d) (Some pr) u).
Proof.
  intros Hn Hs Hd Hp Hu.
  unfold deserialize. rewrite Hp, Hu. unfold str_field, getitem.
  now rewrite Hn, Hs, Hd.
Qed.

Lemma wf_empty (n : Z) : wf (mkDatabase ∅ n).
Proof. intros i p H. cbn in H. rewrite lookup_empty in H. discriminate. Qed.

Lemma wf_create (self : t) (db : Database) :
  wf db -> wf (snd (create self db)).
Proof.
  intros Hwf i p. cbn. rewrite lookup_insert. case_decide as E.
  - intros [= <-]. subst i. cbn. split; [reflexivity|lia].
  - intros H. apply Hwf in H. split; [tauto|lia].
Qed.

Lemma wf_fresh (db : Database) : wf db -> rows db !! (last_id db + 1) = None.
Proof.
  intros Hwf. destruct (rows db !! (last_id db + 1)) as [p|] eqn:E; [|reflexivity].
  apply Hwf in E. lia.
Qed.

Lemma wf_update (self : t) (db : Database) (i : Z) :
  wf db -> id self = Some i -> is_Some (rows db !! i) ->
  wf (snd (update self db)).
Proof.
  intros Hwf Hid [q Hq] j p. unfold update. rewrite Hid. cbn.
  rewrite lookup_insert. case_decide as E.
  - intros [= <-]. subst j. split; [assumption|]. apply Hwf in Hq. tauto.
  - apply Hwf.
Qed.

End model_facts.

Lemma price_field_inv (data : json) (key : string) (pr : Price.Decimal) :
  Product.price_field data key = Ok pr ->
  (exists s, getitem data key = Some (JStr s) /\ Price.of_string s = Some pr)
  \/ (exists n, getitem data key = Some (JInt n) /\ pr = Price.mkDecimal n 0).
Proof.
  unfold Product.price_field.
  destruct (getitem data key) as [[| | n | |s| |]|]; try discriminate.
  - intros [= <-]. right. eauto.
  - destruct (Price.of_string s) as [d|] eqn:E; [|discriminate].
    intros [= <-]. left. eauto.
Qed.

Lemma opt_str_field_inv (data : json) (key : string) (prior u : option string) :
  Product.opt_str_field data key prior = Ok u ->
  (exists s, getitem data key = Some (JStr s) /\ u = Some s)
  \/ (getitem data key = Some JNull /\ u = None)
  \/ (getitem data key = None /\ u = prior).
Proof.
  unfold Product.opt_str_field.
  destruct (getitem data key) as [[| | | |s| |]|]; try discriminate;
    intros [= <-]; eauto.
Qed.

(** ** Routing *)

Section routing_facts.

Lemma str_int_digits (i : Z) :
  0 <= i ->
  exists d, d <> Nil /\ str_int i = NilEmpty.string_of_uint d /\ Z.of_uint d = i.
Proof.
  intros Hi. destruct i as [|p|p]; [| |lia].
  - exists (D0 Nil). repeat split. discriminate.
  - exists (Pos.to_uint p). pose proof (Unsigned.to_uint_nonnil p) as Hp.
    split; [assumption|]. split.
    + unfold str_int. cbn. now destruct (Pos.to_uint p).
    + unfold Z.of_uint. now rewrite DecimalPos.Unsigned.of_to.
Qed.

Lemma split_slash_digits (d : uint) :
  split_slash (NilEmpty.string_of_uint d) = [NilEmpty.string_of_uint d].
Proof. induction d; cbn; rewrite ?IHd; reflexivity. Qed.

Lemma segments_product (i : Z) :
  0 <= i -> segments ("/products/" ++ str_int i) = Some ["products"; str_int i].
Proof.
  intros Hi. destruct (str_int_digits i Hi) as (d & _ & -> & _).
  change ("/products/" ++ NilEmpty.string_of_uint d)
    with (String "/" (String "p" (String "r" (String "o" (String "d"
           (String "u" (String "c" (String "t" (String "s"
             (String "/" (NilEmpty.string_of_uint d))))))))))).
  cbn [segments lstrip_slash split_slash Ascii.eqb Bool.eqb].
  now rewrite split_slash_digits.
Qed.

Lemma int_to_python_str_int (i : Z) : 0 <= i -> int_to_python (str_int i) = Some i.
Proof.
  intros Hi. destruct (str_int_digits i Hi) as (d & Hd & -> & <-).
  unfold int_to_python.
  replace (NilEmpty.string_of_uint d) with (NilZero.string_of_uint d)
    by now destruct d.
  now rewrite NilZero.usu.
Qed.

Lemma match_rules_product (m : Method) (i : Z) :
  0 <= i ->
  match_rules url_map m ["products"; str_int i] false
  = match m with
    | GET => Ok ("get_products", [i])
    | PUT => Ok ("update_products", [i])
    | _ => Raise MethodNotAllowed
    end.
Proof.
  intros Hi. unfold url_map. cbn -[str_int].
  rewrite (int_to_python_str_int i Hi). now destruct m.
Qed.

Lemma match_rules_delete (p : list string) (b : bool) :
  exists code,
    (code = 404 \/ code = 405)
    /\ exists d, match_rules url_map DELETE p b = Raise (HTTPException code d).
Proof.
  unfold url_map. cbn [match_rules rule methods endpoint].
  repeat match goal with
         | |- context [match match_rule ?r p with _ => _ end] =>
             destruct (match_rule r p)
         end;
  cbn; destruct b; eauto.
Qed.

Lemma dispatch_product (request : Request) (i : Z) :
  0 <= i ->
  path request = "/products/" ++ str_int i ->
  dispatch_request request
  = match method request with
    | GET => get_products i
    | PUT => update_products request i
    | _ => raise MethodNotAllowed
    end.
Proof.
  intros Hi Hp. unfold dispatch_request.
  rewrite Hp, (segments_product i Hi), (match_rules_product _ i Hi).
  now destruct (method request).
Qed.

Lemma dispatch_delete (request : Request) (app : App) :
  method request = DELETE ->
  exists code,
    (code = 404 \/ code = 405)
    /\ exists d, wsgi_app request app = (Raise (HTTPException code d), app).
Proof.
  intros Hm. unfold wsgi_app, dispatch_request. rewrite Hm.
  destruct (segments (path request)) as [p|].
  - destruct (match_rules_delete p false) as (code & Hc & d & ->). eauto.
  - exists 404. eauto.
Qed.

End routing_facts.

(** ** The handlers *)

Ltac run :=
  unfold mbind, mret, M_bind, M_ret, abort, raise, logger_info, logger_error,
    emit, lift_result, Product_find, Product_create, Product_update, get_json in *.

Section guard.
Variables (request : Request) (content_type : string) (app : App).

Lemma check_content_type_ok :
  headers request !! "Content-Type" = Some content_type ->
  check_content_type request content_type app = (Ok tt, app).
Proof.
  intros H. unfold check_content_type. rewrite H, String.eqb_refl. reflexivity.
Qed.

Lemma check_content_type_absent :
  headers request !! "Content-Type" = None ->
  check_content_type request content_type app
  = (Raise (HTTPException 415 ("Content-Type must be " ++ content_type)),
     mkApp (db app) (log app ++ [mkLog ERROR "No Content-Type specified." []])).
Proof. intros H. unfold check_content_type. rewrite H. reflexivity. Qed.

Lemma check_content_type_other (value : string) :
  headers request !! "Content-Type" = Some value ->
  value <> content_type ->
  check_content_type request content_type app
  = (Raise (HTTPException 415 ("Content-Type must be " ++ content_type)),
     mkApp (db app)
       (log app ++ [mkLog ERROR "Invalid Content-Type: %s" [JStr value]])).
Proof.
  intros H Hne. unfold check_content_type. rewrite H.
  destruct (String.eqb_spec value content_type); [contradiction|reflexivity].
Qed.

Lemma check_content_type_rejects :
  headers request !! "Content-Type" <> Some content_type ->
  exists app',
    check_content_type request content_type app
    = (Raise (HTTPException 415 ("Content-Type must be " ++ content_type)), app')
    /\ db app' = db app.
Proof.
  intros H. destruct (headers request !! "Content-Type") as [v|] eqn:E.
  - eexists. rewrite (check_content_type_other v) by congruence. split; reflexivity.
  - eexists. rewrite check_content_type_absent by assumption. split; reflexivity.
Qed.
End guard.


Section handler_facts.
Variable request : Request.

Lemma get_products_run (product_id : Z) (app : App) :
  get_products product_id app
  = let app' := mkApp (db app)
        (log app ++ [mkLog INFO "Request to Retrieve a product with id [%s]"
                       [JInt product_id]]) in
    match Product.find product_id (db app) with
    | None =>
        (Raise (HTTPException 404
           ("Product with id '" ++ str_int product_id ++ "' was not found.")),
         app')
    | Some product =>
        (Ok (mkResponse (Product.serialize product) 200 ∅),
         mkApp (db app)
           (log app' ++ [mkLog INFO "Returning product: %s"
                           [Product.opt_json JStr (Product.name product)]]))
    end.
Proof.
  unfold get_products. run. cbn.
  destruct (Product.find product_id (db app)); reflexivity.
Qed.

Lemma update_products_absent (product_id : Z) (app : App) :
  Product.find product_id (db app) = None ->
  update_products request product_id app
  = (Raise (HTTPException 404
       ("Product with id '" ++ str_int product_id ++ "' was not found.")),
     mkApp (db app)
       (log app ++ [mkLog INFO "Request to Update a product with id [%s]"
                      [JInt product_id]])).
Proof. intros H. unfold update_products. run. cbn. now rewrite H. Qed.

(** What remains of [update_products] once the product is found. *)
Lemma update_products_found (product_id : Z) (app : App) (product : Product.t) :
  Product.find product_id (db app) = Some product ->
  update_products request product_id app
  = (check_content_type request "application/json";;
     data ← get_json request;
     logger_info "Processing: %s" [data];;
     product ← lift_result (Product.deserialize product data);
     Product_update product;;
     logger_info "Product with id [%s] updated!"
       [Product.opt_json JInt (Product.id product)];;
     mret (mkResponse (Product.serialize product) HTTP_200_OK ∅))
      (mkApp (db app)
         (log app ++ [mkLog INFO "Request to Update a product with id [%s]"
                        [JInt product_id]])).
Proof. intros H. unfold update_products at 1. run. cbn. now rewrite H. Qed.

Lemma create_products_guard (app : App) :
  create_products request app
  = (check_content_type request "application/json";;
     data ← get_json request;
     logger_info "Processing: %s" [data];;
     product ← lift_result (Product.deserialize Product.new data);
     product ← Product_create product;
     logger_info "Product with new id [%s] saved!"
       [Product.opt_json JInt (Product.id product)];;
     location_url ← url_for request "get_products" (Product.id product) true;
     mret (mkResponse (Product.serialize product) HTTP_201_CREATED
             {["Location" := location_url]}))
      (mkApp (db app)
         (log app ++ [mkLog INFO "Request to Create a Product..." []])).
Proof. reflexivity. Qed.

(** A computation behind a failing guard fails the way the guard does. *)
Lemma guard_fails {A} (k : M A) (app app' : App) (e : Exn) :
  check_content_type request "application/json" app = (Raise e, app') ->
  (check_content_type request "application/json";; k) app = (Raise e, app').
Proof. intros H. unfold mbind, M_bind. now rewrite H. Qed.

Lemma guard_passes {A} (k : M A) (app : App) :
  headers request !! "Content-Type" = Some "application/json" ->
  (check_content_type request "application/json";; k) app = k app.
Proof.
  intros H. unfold mbind, M_bind.
  now rewrite (check_content_type_ok request _ app H).
Qed.

Lemma url_for_get_products (i : Z) (app : App) :
  url_for request "get_products" (Some i) true app
  = (Ok (url_scheme request ++ "://" ++ host request ++
         "/products/" ++ str_int i), app).
Proof.
  unfold url_for. cbn -[str_int String.append].
  rewrite !string_app_assoc, string_app_nil_r. reflexivity.
Qed.

End handler_facts.

(** ** The store invariant *)

Section invariant.
Variable request : Request.

Lemma check_content_type_db (content_type : string) (app : App) :
  db (snd (check_content_type request content_type app)) = db app.
Proof.
  unfold check_content_type.
  destruct (headers request !! "Content-Type") as [v|]; [|reflexivity].
  now destruct (String.eqb v content_type).
Qed.

Lemma create_products_wf (app : App) :
  Product.wf (db app) -> Product.wf (db (snd (create_products request app))).
Proof.
  intros Hwf. rewrite create_products_guard. unfold mbind at 1, M_bind at 1.
  match goal with
  | |- context [check_content_type request ?ct ?a] =>
      pose proof (check_content_type_db ct a) as Hg;
      destruct (check_content_type request ct a) as [[[]|e] app1]
  end; cbn in Hg; [|cbn; now rewrite Hg].
  unfold get_json. destruct (json_body request) as [data|]; run; cbn -[Product.deserialize url_for];
    [|now rewrite Hg].
  destruct (Product.deserialize Product.new data) as [p|e];
    cbn -[url_for]; [|now rewrite Hg].
  rewrite url_for_get_products. cbn. rewrite Hg.
  apply (wf_create p (db app) Hwf).
Qed.

Lemma update_products_wf (product_id : Z) (app : App) :
  Product.wf (db app) ->
  Product.wf (db (snd (update_products request product_id app))).
Proof.
  intros Hwf. destruct (Product.find product_id (db app)) as [p|] eqn:Hf.
  - rewrite (update_products_found request product_id app p Hf).
    unfold mbind at 1, M_bind at 1.
    match goal with
    | |- context [check_content_type request ?ct ?a] =>
        pose proof (check_content_type_db ct a) as Hg;
        destruct (check_content_type request ct a) as [[[]|e] app1]
    end; cbn in Hg; [|cbn; now rewrite Hg].
    unfold get_json. destruct (json_body request) as [data|]; run;
      cbn -[Product.deserialize Product.update]; [|now rewrite Hg].
    destruct (Product.deserialize p data) as [p'|e] eqn:Hd;
      cbn -[Product.update]; [|now rewrite Hg].
    rewrite Hg.
    assert (Hid : Product.id p' = Some product_id).
    { destruct (deserialize_inv _ _ _ Hd) as (-> & _). now apply Hwf in Hf. }
    pose proof (wf_update p' (db app) product_id Hwf Hid
                  (ex_intro _ p Hf)) as Hwf'.
    unfold Product.update in *. rewrite Hid in *. exact Hwf'.
  - now rewrite (update_products_absent request product_id app Hf).
Qed.

End invariant.

(** Every request leaves the store well formed. *)
Lemma wsgi_app_wf (request : Request) (app : App) :
  Product.wf (db app) -> Product.wf (db (snd (wsgi_app request app))).
Proof.
  intros Hwf. unfold wsgi_app, dispatch_request.
  destruct (segments (path request)) as [p|]; [|exact Hwf].
  destruct (match_rules url_map (method request) p false) as [[e vs]|exn];
    [|exact Hwf].
  unfold view.
  destruct (String.eqb e "index"); [exact Hwf|].
  destruct (String.eqb e "create_products"); [now apply create_products_wf|].
  destruct vs as [|i [|]]; try exact Hwf.
  destruct (String.eqb e "get_products").
  - rewrite get_products_run. now destruct (Product.find i (db app)).
  - destruct (String.eqb e "update_products"); [|exact Hwf].
    now apply update_products_wf.
Qed.

(** A DELETE request never reaches a view: the router answers 404 or 405
    and the application state is untouched. *)
Lemma delete_never_succeeds (request : Request) (app : App) :
  method request = DELETE ->
  snd (wsgi_app request app) = app
  /\ (status_of (fst (wsgi_app request app)) = 404
      \/ status_of (fst (wsgi_app request app)) = 405).
Proof.
  intros Hm. destruct (dispatch_delete request app Hm) as (code & Hc & d & ->).
  split; [reflexivity|]. cbn. destruct Hc; subst; auto.
Qed.

(** * The specification, statement by statement *)

(** C3: the Content-Type guard.  When the request has no [Content-Type]
    header, and when it has one that is not the expected string, character
    for character, the guard aborts with HTTP 415 and the message
    ["Content-Type must be <expected>"], leaving the store alone; when the
    header is the expected string the guard returns [None] and changes
    nothing. *)
Theorem check_content_type_guard (request : Request) (content_type : string)
    (app : App) :
  (headers request !! "Content-Type" = None ->
   exists app',
     check_content_type request content_type app
     = (Raise (HTTPException 415 ("Content-Type must be " ++ content_type)), app')
     /\ db app' = db app)
  /\ (forall value,
        headers request !! "Content-Type" = Some value ->
        value <> content_type ->
        exists app',
          check_content_type request content_type app
          = (Raise (HTTPException 415 ("Content-Type must be " ++ content_type)),
             app')
          /\ db app' = db app)
  /\ (headers request !! "Content-Type" = Some content_type ->
      check_content_type request content_type app = (Ok tt, app)).
Proof.
  split; [|split].
  - intros H. apply check_content_type_rejects. congruence.
  - intros v H Hne. apply check_content_type_rejects. congruence.
  - apply check_content_type_ok.
Qed.

Lemma check_content_type_guard_witness :
  fst (check_content_type (Sample.req POST "/products" ∅ (Some Sample.widget))
         "application/json" Sample.app0)
  = Raise (HTTPException 415 "Content-Type must be application/json")
  /\ fst (check_content_type
            (Sample.req POST "/products" Sample.charset_header (Some Sample.widget))
            "application/json" Sample.app0)
     = Raise (HTTPException 415 "Content-Type must be application/json")
  /\ check_content_type Sample.post_widget "application/json" Sample.app0
     = (Ok tt, Sample.app0).
Proof.
  split; [|split].
  - destruct (check_content_type_guard
                (Sample.req POST "/products" ∅ (Some Sample.widget))
                "application/json" Sample.app0) as (H & _ & _).
    destruct (H eq_refl) as (app' & -> & _). reflexivity.
  - destruct (check_content_type_guard
                (Sample.req POST "/products" Sample.charset_header (Some Sample.widget))
                "application/json" Sample.app0) as (_ & H & _).
    destruct (H "application/json; charset=utf-8" eq_refl ltac:(discriminate))
      as (app' & -> & _).
    reflexivity.
  - destruct (check_content_type_guard Sample.post_widget
                "application/json" Sample.app0) as (_ & _ & H).
    apply H. reflexivity.
Defined.

(** C4: the Read handler.  When no product has the id, it aborts with
    HTTP 404 and the message ["Product with id '<id>' was not found."];
    when a product has it, it answers HTTP 200 with the serialized product.
    Either way the store is as it was. *)
Theorem get_products_spec (product_id : Z) (app : App) :
  (Product.find product_id (db app) = None ->
   exists app',
     get_products product_id app
     = (Raise (HTTPException 404
          ("Product with id '" ++ str_int product_id ++ "' was not found.")),
        app')
     /\ db app' = db app)
  /\ (forall product,
        Product.find product_id (db app) = Some product ->
        exists app',
          get_products product_id app
          = (Ok (mkResponse (Product.serialize product) 200 ∅), app')
          /\ db app' = db app).
Proof.
  rewrite get_products_run. split.
  - intros ->. eauto.
  - intros product ->. eauto.
Qed.

Lemma get_products_spec_witness :
  fst (get_products 0 Sample.app0)
  = Raise (HTTPException 404 "Product with id '0' was not found.")
  /\ fst (get_products 9999 Sample.app1)
     = Raise (HTTPException 404 "Product with id '9999' was not found.")
  /\ fst (get_products 1 Sample.app1)
     = Ok (mkResponse (Product.serialize Sample.widget1) 200 ∅).
Proof.
  split; [|split].
  - destruct (get_products_spec 0 Sample.app0) as (H & _).
    destruct (H eq_refl) as (app' & -> & _). reflexivity.
  - destruct (get_products_spec 9999 Sample.app1) as (H & _).
    destruct (H eq_refl) as (app' & -> & _). reflexivity.
  - destruct (get_products_spec 1 Sample.app1) as (_ & H).
    destruct (H Sample.widget1 eq_refl) as (app' & -> & _). reflexivity.
Defined.

(** C2: the Update handler on an id that no product has.  Whatever the
    request carries (no header, a wrong header, any body), it aborts with
    HTTP 404 and the message of the Read handler; the guard has not run
    (the only new log record is the handler's first), and the store is as
    it was. *)
Theorem update_products_not_found (request : Request) (product_id : Z)
    (app : App) :
  Product.find product_id (db app) = None ->
  update_products request product_id app
  = (Raise (HTTPException 404
       ("Product with id '" ++ str_int product_id ++ "' was not found.")),
     mkApp (db app)
       (log app ++ [mkLog INFO "Request to Update a product with id [%s]"
                      [JInt product_id]]))
  /\ fst (update_products request product_id app)
     = fst (get_products product_id app).
Proof.
  intros H. rewrite (update_products_absent request product_id app H).
  split; [reflexivity|]. rewrite get_products_run, H. reflexivity.
Qed.

Lemma update_products_not_found_witness :
  fst (update_products (Sample.req PUT "/products/7" ∅ None) 7 Sample.app1)
  = Raise (HTTPException 404 "Product with id '7' was not found.")
  /\ db (snd (update_products (Sample.req PUT "/products/7" ∅ None) 7 Sample.app1))
     = db Sample.app1.
Proof.
  destruct (update_products_not_found (Sample.req PUT "/products/7" ∅ None) 7
              Sample.app1 eq_refl) as (-> & _).
  split; reflexivity.
Defined.

(** C1, as stated, fails: on the spec's own example request the handler
    answers 201 with the product under id 1, and its [Location] header is
    the absolute URL, not the path [/products/1]. *)
Lemma create_products_location_is_absolute :
  status_of (fst (create_products Sample.post_widget Sample.app0)) = 201
  /\ (exists resp,
        fst (create_products Sample.post_widget Sample.app0) = Ok resp
        /\ getitem (body resp) "id" = Some (JInt 1)
        /\ response_headers resp !! "Location" = Some "http://localhost/products/1"
        /\ response_headers resp !! "Location" <> Some ("/products/" ++ str_int 1)).
Proof.
  split; [reflexivity|]. eexists. split; [reflexivity|].
  split; [reflexivity|]. split; [reflexivity|]. discriminate.
Qed.

(** C1, amended: a POST with the header [Content-Type: application/json]
    and a body that parses and deserializes is answered with HTTP 201; the
    body is the serialized product, which carries the newly assigned
    integer id (the next value of the sequence); the [Location] header is
    the external URL of the Read endpoint for that id,
    [<scheme>://<host>/products/<id>]; and the product is stored under that
    id. *)
Theorem create_products_created (request : Request) (app : App) (data : json)
    (product : Product.t) :
  headers request !! "Content-Type" = Some "application/json" ->
  json_body request = Some data ->
  Product.deserialize Product.new data = Ok product ->
  let new_id := Product.last_id (db app) + 1 in
  let created := Product.with_id product new_id in
  exists app',
    create_products request app
    = (Ok (mkResponse (Product.serialize created) 201
             {["Location" := url_scheme request ++ "://" ++ host request ++
                             "/products/" ++ str_int new_id]}),
       app')
    /\ getitem (Product.serialize created) "id" = Some (JInt new_id)
    /\ Product.find new_id (db app') = Some created.
Proof.
  intros Hh Hb Hd new_id created.
  rewrite create_products_guard, guard_passes by assumption.
  unfold get_json. rewrite Hb. run.
  cbn -[Product.deserialize Product.serialize url_for str_int String.append].
  rewrite Hd. cbn -[Product.serialize url_for str_int String.append].
  rewrite url_for_get_products.
  eexists. split; [reflexivity|]. split; [reflexivity|].
  unfold Product.find. cbn. apply lookup_insert_eq.
Qed.

Lemma create_products_created_witness :
  fst (create_products Sample.post_widget Sample.app0)
  = Ok (mkResponse (Product.serialize Sample.widget1) 201
          {["Location" := "http://localhost/products/1"]})
  /\ Product.find 1 (db Sample.app1) = Some Sample.widget1.
Proof.
  destruct (create_products_created Sample.post_widget Sample.app0 Sample.widget
              (Product.mk None (Some "Widget") (Some "AB123CD")
                 (Some "basic widget") (Some (Price.mkDecimal 999 2))
                 (Some "http://x/img.png")) eq_refl eq_refl eq_refl)
    as (app' & H & _ & _).
  split; [|reflexivity]. rewrite H. reflexivity.
Defined.

(** C5: the Update handler on an existing product, with the JSON header
    and a body that deserializes.  The answer is HTTP 200 with the
    serialized updated product.  The product keeps its id, whatever the
    body says.  Every other field the body supplies replaces the stored
    one: [name], [sku] and [description] become the body's strings and come
    back as the body has them; the price becomes the decimal that the
    body's string denotes, or the body's integer; [image_url] becomes the
    body's string, is cleared by [null], and is kept only when the body
    leaves it out.  The row of that id is rewritten and no other row
    changes. *)
Theorem update_products_updated (request : Request) (product_id : Z) (app : App)
    (product : Product.t) (data : json) (updated : Product.t) :
  Product.wf (db app) ->
  Product.find product_id (db app) = Some product ->
  headers request !! "Content-Type" = Some "application/json" ->
  json_body request = Some data ->
  Product.deserialize product data = Ok updated ->
  exists app',
    update_products request product_id app
    = (Ok (mkResponse (Product.serialize updated) 200 ∅), app')
    /\ Product.id updated = Product.id product
    /\ getitem (Product.serialize updated) "id" = Some (JInt product_id)
    /\ (forall key v,
          key ∈ ["name"; "sku"; "description"; "image_url"] ->
          getitem data key = Some v ->
          getitem (Product.serialize updated) key = Some v)
    /\ (forall s,
          getitem data "price" = Some (JStr s) ->
          is_Some (Price.of_string s)
          /\ Product.price updated = Price.of_string s)
    /\ (forall n,
          getitem data "price" = Some (JInt n) ->
          Product.price updated = Some (Price.mkDecimal n 0))
    /\ (exists n,
          getitem data "name" = Some (JStr n)
          /\ Product.name updated = Some n)
    /\ (exists s,
          getitem data "sku" = Some (JStr s)
          /\ Product.sku updated = Some s)
    /\ (exists d,
          getitem data "description" = Some (JStr d)
          /\ Product.description updated = Some d)
    /\ (exists pr,
          Product.price updated = Some pr
          /\ ((exists s,
                 getitem data "price" = Some (JStr s)
                 /\ Price.of_string s = Some pr)
              \/ (exists n,
                    getitem data "price" = Some (JInt n)
                    /\ pr = Price.mkDecimal n 0)))
    /\ ((exists u,
           getitem data "image_url" = Some (JStr u)
           /\ Product.image_url updated = Some u)
        \/ (getitem data "image_url" = Some JNull
            /\ Product.image_url updated = None)
        \/ (getitem data "image_url" = None
            /\ Product.image_url updated = Product.image_url product))
    /\ Product.rows (db app')
       = <[product_id := updated]> (Product.rows (db app)).
Proof.
  intros Hwf Hf Hh Hb Hd.
  assert (Hid : Product.id updated = Some product_id).
  { destruct (deserialize_inv _ _ _ Hd) as (-> & _). now apply Hwf in Hf. }
  rewrite (update_products_found request product_id app product Hf).
  rewrite guard_passes by assumption.
  unfold get_json. rewrite Hb. run.
  cbn -[Product.deserialize Product.serialize].
  rewrite Hd. eexists. unfold Product.update. rewrite Hid.
  cbn -[Product.serialize]. split; [reflexivity|].
  split; [symmetry; now apply Hwf in Hf|].
  split; [destruct (getitem_serialize updated) as (-> & _); now rewrite Hid|].
  split; [intros key v; now apply deserialize_echo with (self := product)|].
  split; [intros s; now apply deserialize_price with (self := product)|].
  destruct (deserialize_inv _ _ _ Hd)
    as (_ & Hn & Hs & Hde & (pr & Hp & Hpr) & Hu).
  apply price_field_inv in Hp. apply opt_str_field_inv in Hu.
  split.
  { intros n Hv. rewrite Hpr. f_equal.
    destruct Hp as [(s & Hs' & _) | (n' & Hn' & ->)]; congruence. }
  split; [exact Hn|]. split; [exact Hs|]. split; [exact Hde|].
  split; [exists pr; split; [exact Hpr|exact Hp]|].
  split; [exact Hu|]. reflexivity.
Qed.

Lemma update_products_updated_witness :
  fst (update_products (Sample.req PUT "/products/1" Sample.json_header
                          (Some Sample.gadget)) 1 Sample.app1)
  = Ok (mkResponse (Product.serialize Sample.gadget1) 200 ∅)
  /\ getitem Sample.gadget "id" = Some (JInt 99)
  /\ getitem (Product.serialize Sample.gadget1) "id" = Some (JInt 1)
  /\ fst (update_products (Sample.req PUT "/products/1" Sample.json_header
                             (Some Sample.gizmo)) 1 Sample.app1)
     = Ok (mkResponse (Product.serialize Sample.gizmo1) 200 ∅)
  /\ Product.price Sample.gizmo1 = Some (Price.mkDecimal 15 0).
Proof.
  assert (Hwf : Product.wf (db Sample.app1)).
  { apply (wf_create _ (db Sample.app0)), wf_empty. }
  destruct (update_products_updated
              (Sample.req PUT "/products/1" Sample.json_header (Some Sample.gadget))
              1 Sample.app1 Sample.widget1 Sample.gadget Sample.gadget1
              Hwf eq_refl eq_refl eq_refl eq_refl) as (app' & -> & _ & H & _).
  destruct (update_products_updated
              (Sample.req PUT "/products/1" Sample.json_header (Some Sample.gizmo))
              1 Sample.app1 Sample.widget1 Sample.gizmo Sample.gizmo1
              Hwf eq_refl eq_refl eq_refl eq_refl)
    as (app'' & -> & _ & _ & _ & _ & Hint & _).
  split; [reflexivity|]. split; [reflexivity|]. split; [exact H|].
  split; [reflexivity|]. exact (Hint 15 eq_refl).
Defined.

(** C6: the round trip.  Deserializing the serialization of a valid
    product, onto any product at all, succeeds and yields the same [name],
    [sku], [description], [price] and [image_url]; the id of the target is
    left as it was. *)
Theorem deserialize_serialize (p q : Product.t) :
  Product.valid p ->
  exists q',
    Product.deserialize q (Product.serialize p) = Ok q'
    /\ Product.name q' = Product.name p
    /\ Product.sku q' = Product.sku p
    /\ Product.description q' = Product.description p
    /\ Product.price q' = Product.price p
    /\ Product.image_url q' = Product.image_url p
    /\ Product.id q' = Product.id q.
Proof.
  intros ([n Hn] & [s Hs] & [d Hd] & [pr Hp]).
  destruct p as [i pn ps pd pp pu]. cbn in Hn, Hs, Hd, Hp. subst.
  exists (Product.mk (Product.id q) (Some n) (Some s) (Some d) (Some pr) pu).
  split; [|repeat split].
  set (p := Product.mk i (Some n) (Some s) (Some d) (Some pr) pu).
  destruct (getitem_serialize p) as (_ & _ & _ & _ & Gp & Gu).
  apply deserialize_total; try reflexivity.
  - change (Product.price_field (Product.serialize p) "price" = Ok pr).
    unfold Product.price_field. rewrite Gp.
    cbn [Product.opt_json Product.price p]. now rewrite price_of_to_string.
  - change (Product.opt_str_field (Product.serialize p) "image_url"
              (Product.image_url q) = Ok pu).
    unfold Product.opt_str_field. rewrite Gu. now destruct pu.
Qed.

Lemma deserialize_serialize_witness :
  Product.deserialize Product.new (Product.serialize Sample.widget1)
  = Ok (Product.mk None (Some "Widget") (Some "AB123CD") (Some "basic widget")
          (Some (Price.mkDecimal 999 2)) (Some "http://x/img.png")).
Proof.
  destruct (deserialize_serialize Sample.widget1 Product.new) as (q' & -> & H).
  - repeat split; eexists; reflexivity.
  - destruct q'. cbn in H. destruct H as (-> & -> & -> & -> & -> & ->).
    reflexivity.
Defined.

(** C7, as stated, fails for PUT: on an id that no product has, a request
    without a [Content-Type] header is answered 404, not 415. *)
Lemma update_products_missing_header_404 :
  headers (Sample.req PUT "/products/1" ∅ (Some Sample.gadget)) !! "Content-Type"
  = None
  /\ status_of (fst (update_products
                       (Sample.req PUT "/products/1" ∅ (Some Sample.gadget)) 1
                       Sample.app0)) = 404
  /\ status_of (fst (update_products
                       (Sample.req PUT "/products/1" ∅ (Some Sample.gadget)) 1
                       Sample.app0)) <> 415.
Proof. split; [reflexivity|]. split; [reflexivity|discriminate]. Qed.

(** C7, amended: for POST /products, and for PUT /products/{id} on an id
    that a product has, the status is 415 when the [Content-Type] header is
    missing or is not [application/json], and 400 when the header is
    [application/json] and the body is not valid JSON; a PUT on an id that
    no product has is answered 404 in both cases.  So the status is never
    5xx. *)
Theorem create_update_client_errors (request : Request) (product_id : Z)
    (app : App) :
  let on_create := status_of (fst (create_products request app)) in
  let on_update := status_of (fst (update_products request product_id app)) in
  (headers request !! "Content-Type" <> Some "application/json" ->
   on_create = 415
   /\ on_update = match Product.find product_id (db app) with
                  | Some _ => 415
                  | None => 404
                  end)
  /\ (headers request !! "Content-Type" = Some "application/json" ->
      json_body request = None ->
      on_create = 400
      /\ on_update = match Product.find product_id (db app) with
                     | Some _ => 400
                     | None => 404
                     end)
  /\ (headers request !! "Content-Type" <> Some "application/json"
      \/ json_body request = None ->
      on_create < 500 /\ on_update < 500).
Proof.
  intros on_create on_update.
  assert (H415 : headers request !! "Content-Type" <> Some "application/json" ->
                 on_create = 415
                 /\ on_update = match Product.find product_id (db app) with
                                | Some _ => 415
                                | None => 404
                                end).
  { intros Hh. subst on_create on_update. split.
    - rewrite create_products_guard.
      destruct (check_content_type_rejects request "application/json"
                  (mkApp (db app)
                     (log app ++ [mkLog INFO "Request to Create a Product..." []]))
                  Hh) as (app' & Hg & _).
      now rewrite (guard_fails request _ _ _ _ Hg).
    - destruct (Product.find product_id (db app)) as [p|] eqn:Hf.
      + rewrite (update_products_found request product_id app p Hf).
        match goal with
        | |- context [(_ ;; _) ?a] =>
            destruct (check_content_type_rejects request "application/json" a Hh)
              as (app' & Hg & _)
        end.
        now rewrite (guard_fails request _ _ _ _ Hg).
      + now rewrite (update_products_absent request product_id app Hf). }
  assert (H400 : headers request !! "Content-Type" = Some "application/json" ->
                 json_body request = None ->
                 on_create = 400
                 /\ on_update = match Product.find product_id (db app) with
                                | Some _ => 400
                                | None => 404
                                end).
  { intros Hh Hb. subst on_create on_update. split.
    - rewrite create_products_guard, guard_passes by assumption.
      unfold get_json. rewrite Hb. reflexivity.
    - destruct (Product.find product_id (db app)) as [p|] eqn:Hf.
      + rewrite (update_products_found request product_id app p Hf).
        rewrite guard_passes by assumption.
        unfold get_json. rewrite Hb. reflexivity.
      + now rewrite (update_products_absent request product_id app Hf). }
  split; [assumption|]. split; [assumption|].
  intros Hor.
  destruct (decide (headers request !! "Content-Type" = Some "application/json"))
    as [Hh|Hh].
  - destruct Hor as [Hn|Hb]; [contradiction|].
    destruct (H400 Hh Hb) as (-> & ->).
    destruct (Product.find product_id (db app)); lia.
  - destruct (H415 Hh) as (-> & ->).
    destruct (Product.find product_id (db app)); lia.
Qed.

Lemma create_update_client_errors_witness :
  status_of (fst (create_products (Sample.req POST "/products" ∅ None) Sample.app1))
  = 415
  /\ status_of (fst (update_products (Sample.req POST "/products" ∅ None) 1
                       Sample.app1)) = 415
  /\ status_of (fst (create_products
                       (Sample.req POST "/products" Sample.json_header None)
                       Sample.app1)) = 400
  /\ status_of (fst (update_products
                       (Sample.req PUT "/products/1" Sample.json_header None) 1
                       Sample.app1)) = 400
  /\ status_of (fst (update_products
                       (Sample.req PUT "/products/2" Sample.json_header None) 2
                       Sample.app1)) < 500.
Proof.
  destruct (create_update_client_errors (Sample.req POST "/products" ∅ None) 1
              Sample.app1) as (H1 & _ & _).
  destruct (H1 ltac:(discriminate)) as (Hc & Hu).
  destruct (create_update_client_errors
              (Sample.req POST "/products" Sample.json_header None) 1
              Sample.app1) as (_ & H2 & _).
  destruct (H2 eq_refl eq_refl) as (Hc' & _).
  destruct (create_update_client_errors
              (Sample.req PUT "/products/1" Sample.json_header None) 1
              Sample.app1) as (_ & H3 & _).
  destruct (H3 eq_refl eq_refl) as (_ & Hu').
  destruct (create_update_client_errors
              (Sample.req PUT "/products/2" Sample.json_header None) 2
              Sample.app1) as (_ & _ & H4).
  destruct (H4 (or_intror eq_refl)) as (_ & Hlt).
  repeat split; assumption.
Defined.

(** C8: the service has no DELETE handler.  [DELETE /products/1] on a store
    that holds product 1 is answered 405 Method Not Allowed, not 204, and
    the product is still there; on a store without product 1 the answer is
    405 as well; yet the discovery document advertises the operation. *)
Theorem delete_products_not_allowed :
  wsgi_app (Sample.req DELETE "/products/1" ∅ None) Sample.app1
  = (Raise (HTTPException 405 "The method is not allowed for the requested URL."), Sample.app1)
  /\ Product.find 1 (db Sample.app1) = Some Sample.widget1
  /\ wsgi_app (Sample.req DELETE "/products/1" ∅ None) Sample.app0
     = (Raise (HTTPException 405 "The method is not allowed for the requested URL."), Sample.app0)
  /\ Forall (fun r => DELETE ∉ methods r) url_map
  /\ (exists entries,
        getitem api_details "endpoints" = Some (JArr entries)
        /\ endpoint_entry "DELETE" "/products/<product_id>"
             "Deletes a product based on its id" ∈ entries).
Proof.
  split; [reflexivity|]. split; [reflexivity|]. split; [reflexivity|].
  split.
  - compute_done.
  - eexists. split; [reflexivity|]. do 4 apply list_elem_of_further.
    apply list_elem_of_here.
Qed.

(** C9, as stated, fails: [GET /] is itself an operation the service
    supports (it is routed to [index] and answered 200), and the list of
    endpoints in the document has no entry for the path [/]. *)
Lemma index_has_no_entry_for_itself :
  fst (wsgi_app (Sample.req GET "/" ∅ None) Sample.app0)
  = Ok (mkResponse api_details 200 ∅)
  /\ (exists entries,
        getitem api_details "endpoints" = Some (JArr entries)
        /\ ~ (exists e m d,
                e ∈ entries /\ entry_fields e = Some (m, "/", d))).
Proof.
  split; [reflexivity|]. eexists. split; [reflexivity|].
  intros (e & m & d & Hin & He).
  repeat (apply elem_of_cons in Hin as [-> | Hin];
          [vm_compute in He; discriminate He|]).
  now apply elem_of_nil in Hin.
Qed.

(** C9, amended: the Index handler answers HTTP 200 with one fixed
    document, whatever the request and the application state, and leaves the
    state as it was (not even a log record).  The document has exactly the
    five members [name], [version], [description], [status] and
    [endpoints]; every element of [endpoints] is an object with exactly the
    members [method], [path] and [description], all strings; the three
    operations on products that the service routes are there, each with its
    method, path and description, and so is every method of every route
    other than the root; the root [GET /] itself has no entry. *)
Theorem index_spec :
  (forall app, index app = (Ok (mkResponse api_details 200 ∅), app))
  /\ (forall scheme h hs b app,
        wsgi_app (mkRequest GET "/" scheme h hs b) app = index app)
  /\ (exists members, api_details = JObj members /\ size members = 5%nat)
  /\ getitem api_details "name" = Some (JStr "Products REST API Service")
  /\ getitem api_details "version" = Some (JStr "0.1.0")
  /\ getitem api_details "description"
     = Some (JStr "This is the products service API. Below is how you use it.")
  /\ getitem api_details "status" = Some (JStr "online")
  /\ (exists entries,
        getitem api_details "endpoints" = Some (JArr entries)
        /\ Forall (fun e => exists m p d, e = endpoint_entry m p d) entries
        /\ Forall (fun e => is_Some (entry_fields e)) entries
        /\ Some ("POST", "/products",
                 "Creates a new product with the data in the body that is posted")
           ∈ map entry_fields entries
        /\ Some ("GET", "/products/<product_id>",
                 "Returns a product based on its id")
           ∈ map entry_fields entries
        /\ Some ("PUT", "/products/<product_id>",
                 "Updates a product based on its id with the data in the body that is posted")
           ∈ map entry_fields entries
        /\ Forall (fun r =>
             endpoint r <> "index" ->
             Forall (fun m =>
               exists d,
                 Some (method_name m, doc_path (rule r), d)
                 ∈ map entry_fields entries)
               (methods r)) url_map
        /\ Forall (fun e =>
             forall m p d, entry_fields e = Some (m, p, d) -> p <> "/")
             entries).
Proof.
  split; [reflexivity|]. split; [reflexivity|].
  split; [eexists; split; [reflexivity|]; vm_compute; reflexivity|].
  repeat (split; [reflexivity|]).
  eexists. split; [reflexivity|].
  split; [repeat constructor; eauto|].
  split; [repeat constructor; vm_compute; eauto|].
  split; [vm_compute; apply list_elem_of_here|].
  split; [vm_compute; apply list_elem_of_further, list_elem_of_here|].
  split; [vm_compute; do 3 apply list_elem_of_further; apply list_elem_of_here|].
  split.
  - unfold url_map. repeat apply Forall_cons_2; try apply Forall_nil_2; cbn.
    + intros H. now contradiction H.
    + intros _. repeat constructor. eexists. vm_compute.
      apply list_elem_of_here.
    + intros _. repeat constructor. eexists. vm_compute.
      apply list_elem_of_further, list_elem_of_here.
    + intros _. repeat constructor. eexists. vm_compute.
      do 3 apply list_elem_of_further. apply list_elem_of_here.
  - repeat constructor; intros m p d He; vm_compute in He;
      injection He as <- <- <-; discriminate.
Qed.

(** C10: a POST that the guard rejects.  The handler aborts with the
    guard's 415; the store is as it was; the log gains the handler's first
    record and the guard's error record and nothing else; and the outcome
    is the same for every request with the same headers, whatever its body:
    the body is not looked at. *)
Theorem create_products_rejected (request : Request) (app : App) (e : Exn) :
  fst (check_content_type request "application/json" app) = Raise e ->
  e = HTTPException 415 "Content-Type must be application/json"
  /\ fst (create_products request app) = Raise e
  /\ db (snd (create_products request app)) = db app
  /\ (exists r,
        level r = ERROR
        /\ log (snd (create_products request app))
           = (log app ++ [mkLog INFO "Request to Create a Product..." []; r])%list)
  /\ (forall request',
        headers request' = headers request ->
        create_products request' app = create_products request app).
Proof.
  intros Hg.
  assert (Hh : headers request !! "Content-Type" <> Some "application/json").
  { intros Hh. rewrite (check_content_type_ok request _ app Hh) in Hg.
    discriminate. }
  assert (He : e = HTTPException 415 "Content-Type must be application/json").
  { destruct (check_content_type_rejects request "application/json" app Hh)
      as (app' & Hr & _).
    rewrite Hr in Hg. injection Hg as <-. reflexivity. }
  split; [assumption|]. subst e.
  assert (Hrun : forall rq,
    headers rq = headers request ->
    exists r,
      level r = ERROR
      /\ create_products rq app
         = (Raise (HTTPException 415 "Content-Type must be application/json"),
            mkApp (db app)
              (log app ++ [mkLog INFO "Request to Create a Product..." []; r]))
      /\ r = match headers request !! "Content-Type" with
             | Some v => mkLog ERROR "Invalid Content-Type: %s" [JStr v]
             | None => mkLog ERROR "No Content-Type specified." []
             end).
  { intros rq Hrq. rewrite create_products_guard.
    destruct (headers request !! "Content-Type") as [v|] eqn:Ev.
    - eexists. split; [|split; [|reflexivity]]; [reflexivity|].
      erewrite guard_fails;
        [|apply (check_content_type_other rq _ _ v); congruence].
      cbn. now rewrite <- app_assoc.
    - eexists. split; [|split; [|reflexivity]]; [reflexivity|].
      erewrite guard_fails;
        [|apply (check_content_type_absent rq); congruence].
      cbn. now rewrite <- app_assoc. }
  destruct (Hrun request eq_refl) as (r & Hl & Hc & Hr).
  rewrite Hc. cbn. split; [reflexivity|]. split; [reflexivity|].
  split; [eauto|].
  intros rq Hrq. destruct (Hrun rq Hrq) as (r' & _ & -> & ->). now subst r.
Qed.

Lemma create_products_rejected_witness :
  fst (create_products
         (Sample.req POST "/products" Sample.charset_header (Some Sample.widget))
         Sample.app0)
  = Raise (HTTPException 415 "Content-Type must be application/json")
  /\ db (snd (create_products
                (Sample.req POST "/products" Sample.charset_header
                   (Some Sample.widget)) Sample.app0))
     = db Sample.app0.
Proof.
  destruct (create_products_rejected
              (Sample.req POST "/products" Sample.charset_header (Some Sample.widget))
              Sample.app0 _ eq_refl) as (_ & H1 & H2 & _).
  split; assumption.
Defined.

(** ** The handlers, run to the end *)

Section runs.
Variable request : Request.

Lemma check_content_type_run (content_type : string) (app : App) :
  check_content_type request content_type app
  = match headers request !! "Content-Type" with
    | None =>
        (Raise (HTTPException 415 ("Content-Type must be " ++ content_type)),
         mkApp (db app)
           (log app ++ [mkLog ERROR "No Content-Type specified." []]))
    | Some value =>
        if String.eqb value content_type then (Ok tt, app)
        else
          (Raise (HTTPException 415 ("Content-Type must be " ++ content_type)),
           mkApp (db app)
             (log app ++ [mkLog ERROR "Invalid Content-Type: %s" [JStr value]]))
    end.
Proof.
  unfold check_content_type.
  destruct (headers request !! "Content-Type") as [v|]; [|reflexivity].
  now destruct (String.eqb v content_type).
Qed.

Lemma create_products_run (app : App) :
  create_products request app
  = let l0 := (log app ++ [mkLog INFO "Request to Create a Product..." []])%list in
    match headers request !! "Content-Type" with
    | None =>
        (Raise (HTTPException 415 "Content-Type must be application/json"),
         mkApp (db app) (l0 ++ [mkLog ERROR "No Content-Type specified." []]))
    | Some value =>
        if String.eqb value "application/json" then
          match json_body request with
          | None =>
              (Raise (HTTPException 400
                 "The browser (or proxy) sent a request that this server could not understand."),
               mkApp (db app) l0)
          | Some data =>
              let l1 := (l0 ++ [mkLog INFO "Processing: %s" [data]])%list in
              match Product.deserialize Product.new data with
              | Raise e => (Raise e, mkApp (db app) l1)
              | Ok product =>
                  let i := Product.last_id (db app) + 1 in
                  let created := Product.with_id product i in
                  (Ok (mkResponse (Product.serialize created) 201
                         {["Location" := url_scheme request ++ "://" ++
                             host request ++ "/products/" ++ str_int i]}),
                   mkApp (snd (Product.create product (db app)))
                     (l1 ++ [mkLog INFO "Product with new id [%s] saved!"
                               [JInt i]]))
              end
          end
        else
          (Raise (HTTPException 415 "Content-Type must be application/json"),
           mkApp (db app)
             (l0 ++ [mkLog ERROR "Invalid Content-Type: %s" [JStr value]]))
    end.
Proof.
  rewrite create_products_guard. unfold mbind at 1, M_bind at 1.
  rewrite check_content_type_run. cbn zeta.
  destruct (headers request !! "Content-Type") as [v|]; [|reflexivity].
  destruct (String.eqb v "application/json"); [|reflexivity].
  unfold get_json. destruct (json_body request) as [data|]; [|reflexivity].
  run. cbn -[Product.deserialize Product.serialize url_for str_int String.append].
  destruct (Product.deserialize Product.new data) as [p|e]; [|reflexivity].
  cbn -[Product.serialize url_for str_int String.append].
  rewrite url_for_get_products. reflexivity.
Qed.

Lemma update_products_run (product_id : Z) (app : App) :
  update_products request product_id app
  = let l0 := (log app ++ [mkLog INFO "Request to Update a product with id [%s]"
                             [JInt product_id]])%list in
    match Product.find product_id (db app) with
    | None =>
        (Raise (HTTPException 404
           ("Product with id '" ++ str_int product_id ++ "' was not found.")),
         mkApp (db app) l0)
    | Some product =>
        match headers request !! "Content-Type" with
        | None =>
            (Raise (HTTPException 415 "Content-Type must be application/json"),
             mkApp (db app) (l0 ++ [mkLog ERROR "No Content-Type specified." []]))
        | Some value =>
            if String.eqb value "application/json" then
              match json_body request with
              | None =>
                  (Raise (HTTPException 400
                     "The browser (or proxy) sent a request that this server could not understand."),
                   mkApp (db app) l0)
              | Some data =>
                  let l1 := (l0 ++ [mkLog INFO "Processing: %s" [data]])%list in
                  match Product.deserialize product data with
                  | Raise e => (Raise e, mkApp (db app) l1)
                  | Ok updated =>
                      match Product.update updated (db app) with
                      | (Ok _, db') =>
                          (Ok (mkResponse (Product.serialize updated) 200 ∅),
                           mkApp db'
                             (l1 ++ [mkLog INFO "Product with id [%s] updated!"
                                       [Product.opt_json JInt
                                          (Product.id updated)]]))
                      | (Raise e, db') => (Raise e, mkApp db' l1)
                      end
                  end
              end
            else
              (Raise (HTTPException 415 "Content-Type must be application/json"),
               mkApp (db app)
                 (l0 ++ [mkLog ERROR "Invalid Content-Type: %s" [JStr value]]))
        end
    end.
Proof.
  cbn zeta. destruct (Product.find product_id (db app)) as [p|] eqn:Hf.
  - rewrite (update_products_found request product_id app p Hf).
    unfold mbind at 1, M_bind at 1. rewrite check_content_type_run.
    destruct (headers request !! "Content-Type") as [v|]; [|reflexivity].
    destruct (String.eqb v "application/json"); [|reflexivity].
    unfold get_json. destruct (json_body request) as [data|]; [|reflexivity].
    run. cbn -[Product.deserialize Product.serialize Product.update].
    destruct (Product.deserialize p data) as [p'|e]; [|reflexivity].
    cbn -[Product.serialize Product.update].
    now destruct (Product.update p' (db app)) as [[[]|e] db'].
  - now rewrite (update_products_absent request product_id app Hf).
Qed.

End runs.

(** ** Routing, read backwards *)

(** Decides the membership tests of methods that the goal shows. *)
Ltac decide_methods :=
  repeat match goal with
         | |- context [bool_decide (?a ∈ ?l)] =>
             let b := eval vm_compute in (bool_decide (a ∈ l)) in
             change (bool_decide (a ∈ l)) with b
         end;
  cbn beta iota.

Section routing_inversion.

Lemma int_to_python_nonneg (s : string) (i : Z) :
  int_to_python s = Some i -> 0 <= i.
Proof.
  unfold int_to_python. destruct (NilZero.uint_of_string s); [|discriminate].
  intros [= <-]. unfold Z.of_uint. lia.
Qed.

Lemma match_rule_static (text : string) (p : list string) (vs : list Z) :
  match_rule [Static text] p = Some vs <-> p = [text] /\ vs = [].
Proof.
  split.
  - destruct p as [|x [|y p]]; cbn; try discriminate.
    + destruct (String.eqb_spec text x); [|discriminate]. intros [= <-].
      now subst.
    + destruct (String.eqb text x); discriminate.
  - intros [-> ->]. cbn. now rewrite String.eqb_refl.
Qed.

Lemma match_rule_item (text variable : string) (p : list string) (vs : list Z) :
  match_rule [Static text; IntConverter variable] p = Some vs
  <-> exists s i, p = [text; s] /\ int_to_python s = Some i /\ vs = [i].
Proof.
  split.
  - destruct p as [|x [|y [|z p]]]; cbn; try discriminate.
    + destruct (String.eqb text x); discriminate.
    + destruct (String.eqb_spec text x); [|discriminate].
      destruct (int_to_python y) as [i|] eqn:Hy; [|discriminate].
      intros [= <-]. subst. eauto.
    + destruct (String.eqb text x); [|discriminate].
      destruct (int_to_python y); discriminate.
  - intros (s & i & -> & Hs & ->). cbn. now rewrite String.eqb_refl, Hs.
Qed.

Lemma match_rules_inv (m : Method) (p : list string) (b : bool) (e : string)
    (vs : list Z) :
  match_rules url_map m p b = Ok (e, vs) ->
  (p = [""] /\ m = GET /\ e = "index" /\ vs = [])
  \/ (p = ["products"] /\ m = POST /\ e = "create_products" /\ vs = [])
  \/ (exists s i,
        p = ["products"; s] /\ int_to_python s = Some i /\ vs = [i]
        /\ ((m = GET /\ e = "get_products")
            \/ (m = PUT /\ e = "update_products"))).
Proof.
  unfold url_map. cbn [match_rules rule methods endpoint].
  destruct (match_rule [Static ""] p) as [v1|] eqn:E1.
  { apply match_rule_static in E1 as [-> ->]. cbn.
    destruct m; decide_methods; intros [= <- <-] || discriminate.
    left. repeat split. }
  destruct (match_rule [Static "products"] p) as [v2|] eqn:E2.
  { apply match_rule_static in E2 as [-> ->]. cbn.
    destruct m; decide_methods; intros [= <- <-] || discriminate.
    right; left. repeat split. }
  destruct (match_rule [Static "products"; IntConverter "product_id"] p)
    as [v3|] eqn:E3.
  { apply match_rule_item in E3 as (s & i & -> & Hs & ->).
    destruct m; decide_methods; intros [= <- <-] || discriminate;
      right; right; exists s, i; auto 10. }
  destruct b; discriminate.
Qed.

(** What the router answers when it reaches no view. *)
Lemma match_rules_raise (m : Method) (p : list string) (b : bool) (exn : Exn) :
  match_rules url_map m p b = Raise exn ->
  exn = NotFound \/ exn = MethodNotAllowed.
Proof.
  unfold url_map. cbn [match_rules rule methods endpoint].
  repeat match goal with
         | |- context [match match_rule ?r p with _ => _ end] =>
             destruct (match_rule r p)
         end;
  destruct m, b; decide_methods; intros [= <-] || discriminate; auto.
Qed.

End routing_inversion.

(** Every request ends in the router's own answer or in one of the four
    views, reached by the method its route declares. *)
Lemma wsgi_app_cases (request : Request) (app : App) :
  (exists exn,
     (exn = NotFound \/ exn = MethodNotAllowed)
     /\ wsgi_app request app = (Raise exn, app))
  \/ (method request = GET /\ wsgi_app request app = index app)
  \/ (method request = POST
      /\ wsgi_app request app = create_products request app)
  \/ (exists i,
        0 <= i /\ method request = GET
        /\ wsgi_app request app = get_products i app)
  \/ (exists i,
        0 <= i /\ method request = PUT
        /\ wsgi_app request app = update_products request i app).
Proof.
  unfold wsgi_app, dispatch_request.
  destruct (segments (path request)) as [p|]; [|left; eauto].
  destruct (match_rules url_map (method request) p false) as [[e vs]|exn] eqn:E.
  - apply match_rules_inv in E
      as [(_ & Hm & -> & ->) | [(_ & Hm & -> & ->) | (s & i & _ & Hs & -> & H)]].
    + right; left. auto.
    + right; right; left. auto.
    + apply int_to_python_nonneg in Hs.
      destruct H as [(Hm & ->) | (Hm & ->)].
      * right; right; right; left. exists i. auto.
      * right; right; right; right. exists i. auto.
  - apply match_rules_raise in E. left. exists exn. auto.
Qed.

(** ** What a request can do *)

Lemma deserialize_raises (self : Product.t) (data : json) (e : Exn) :
  Product.deserialize self data = Raise e ->
  exists message, e = DataValidationError message.
Proof.
  unfold Product.deserialize, Product.str_field, Product.price_field,
    Product.opt_str_field, Product.missing, Product.bad_type.
  unfold mbind, mret, Result_bind, Result_ret.
  destruct data; try (intros [= <-]; eauto).
  repeat match goal with
         | |- context [match getitem ?d ?k with _ => _ end] =>
             destruct (getitem d k) as [[]|]
         | |- context [match Price.of_string ?s with _ => _ end] =>
             destruct (Price.of_string s)
         end;
  intros [= <-] || discriminate; eauto.
Qed.

Lemma update_raises (self : Product.t) (db : Product.Database) (e : Exn)
    (db' : Product.Database) :
  Product.update self db = (Raise e, db') ->
  db' = db /\ exists message, e = DataValidationError message.
Proof.
  unfold Product.update. destruct (Product.id self); [discriminate|].
  intros [= <- <-]. eauto.
Qed.

Lemma index_outcome (request : Request) (app : App) :
  method request = GET ->
  Outcome request app (fst (index app)) (snd (index app)) [].
Proof. intros Hm. now eapply ends_read. Qed.

Lemma get_products_outcome (request : Request) (i : Z) (app : App) :
  method request = GET ->
  exists added,
    log (snd (get_products i app)) = (log app ++ added)%list
    /\ Outcome request app (fst (get_products i app))
         (snd (get_products i app)) added.
Proof.
  intros Hm. rewrite get_products_run. cbn zeta.
  destruct (Product.find i (db app)) as [p|]; cbn [fst snd log].
  - eexists. split; [now rewrite <- app_assoc|].
    eapply ends_read; eauto; repeat constructor.
  - eexists. split; [reflexivity|].
    eapply ends_not_found; eauto; repeat constructor.
Qed.

Lemma create_products_outcome (request : Request) (app : App) :
  method request = POST ->
  exists added,
    log (snd (create_products request app)) = (log app ++ added)%list
    /\ Outcome request app (fst (create_products request app))
         (snd (create_products request app)) added.
Proof.
  intros Hm. rewrite create_products_run. cbn zeta.
  destruct (headers request !! "Content-Type") as [v|] eqn:Hh.
  - destruct (String.eqb_spec v "application/json") as [->|Hv].
    + destruct (json_body request) as [data|] eqn:Hb.
      * destruct (Product.deserialize Product.new data) as [p|e] eqn:Hd;
          cbn [fst snd log].
        -- eexists. split; [now rewrite <- !app_assoc|].
           eapply ends_created; eauto; repeat constructor.
        -- eexists. split; [now rewrite <- !app_assoc|].
           destruct (deserialize_raises _ _ _ Hd) as [m ->].
           eapply ends_bad_request; eauto; repeat constructor.
      * eexists. split; [reflexivity|].
        eapply ends_bad_request; eauto; repeat constructor.
    + eexists. split; [cbn; now rewrite <- !app_assoc|].
      eapply ends_unsupported; eauto. congruence.
  - eexists. split; [cbn; now rewrite <- !app_assoc|].
    eapply ends_unsupported; eauto. congruence.
Qed.

Lemma update_products_outcome (request : Request) (i : Z) (app : App) :
  method request = PUT -> 0 <= i ->
  exists added,
    log (snd (update_products request i app)) = (log app ++ added)%list
    /\ Outcome request app (fst (update_products request i app))
         (snd (update_products request i app)) added.
Proof.
  intros Hm Hi. rewrite update_products_run. cbn zeta.
  destruct (Product.find i (db app)) as [p|] eqn:Hf.
  2:{ eexists. split; [reflexivity|].
      eapply ends_not_found; eauto; repeat constructor. }
  destruct (headers request !! "Content-Type") as [v|] eqn:Hh.
  - destruct (String.eqb_spec v "application/json") as [->|Hv].
    + destruct (json_body request) as [data|] eqn:Hb.
      * destruct (Product.deserialize p data) as [p'|e] eqn:Hd;
          cbn [fst snd log].
        -- destruct (Product.update p' (db app)) as [[[]|e] db'] eqn:Hu;
             cbn [fst snd log].
           ++ eexists. split; [now rewrite <- !app_assoc|].
              eapply ends_updated; eauto; repeat constructor.
           ++ apply update_raises in Hu as (-> & m & ->).
              eexists. split; [now rewrite <- !app_assoc|].
              eapply ends_bad_request; eauto; repeat constructor.
        -- eexists. split; [now rewrite <- !app_assoc|].
           destruct (deserialize_raises _ _ _ Hd) as [m ->].
           eapply ends_bad_request; eauto; repeat constructor.
      * eexists. split; [reflexivity|].
        eapply ends_bad_request; eauto; repeat constructor.
    + eexists. split; [cbn; now rewrite <- !app_assoc|].
      eapply ends_unsupported; eauto. congruence.
  - eexists. split; [cbn; now rewrite <- !app_assoc|].
    eapply ends_unsupported; eauto. congruence.
Qed.

(** Every request ends in one of the outcomes, and only adds to the log. *)
Lemma wsgi_app_outcome (request : Request) (app : App) :
  exists added,
    log (snd (wsgi_app request app)) = (log app ++ added)%list
    /\ Outcome request app (fst (wsgi_app request app))
         (snd (wsgi_app request app)) added.
Proof.
  destruct (wsgi_app_cases request app)
    as [(exn & He & ->) | [(Hm & ->) | [(Hm & ->) | [(i & Hi & Hm & ->)
       | (i & Hi & Hm & ->)]]]].
  - exists []. split; [rewrite app_nil_r; reflexivity|].
    now apply (ends_routed_out _ _ _ _ _ exn).
  - exists []. split; [rewrite app_nil_r; reflexivity|]. now apply index_outcome.
  - now apply create_products_outcome.
  - now apply get_products_outcome.
  - now apply update_products_outcome.
Qed.

(** * Further properties of the handlers *)

(** X1: [url_for] and the router agree.  For a non-negative id, the URL
    that [url_for("get_products", product_id=id, _external=True)] builds is
    scheme, host and the path [/products/<id>]; a request on that path is
    routed with that very id: a GET to [get_products], a PUT to
    [update_products]. *)
Theorem product_url_routes_back (request : Request) (i : Z) (app : App) :
  0 <= i ->
  url_for request "get_products" (Some i) true app
  = (Ok (url_scheme request ++ "://" ++ host request ++
         "/products/" ++ str_int i), app)
  /\ forall request',
       path request' = "/products/" ++ str_int i ->
       (method request' = GET ->
        dispatch_request request' = get_products i)
       /\ (method request' = PUT ->
           dispatch_request request' = update_products request' i).
Proof.
  intros Hi. split.
  - apply url_for_get_products.
  - intros request' Hp.
    rewrite (dispatch_product request' i Hi Hp).
    split; intros ->; reflexivity.
Qed.

Lemma product_url_routes_back_witness :
  fst (url_for Sample.post_widget "get_products" (Some 42) true Sample.app0)
  = Ok "http://localhost/products/42"
  /\ dispatch_request (Sample.req GET "/products/42" ∅ None) = get_products 42.
Proof.
  destruct (product_url_routes_back Sample.post_widget 42 Sample.app0
              ltac:(lia)) as (Hu & Hr).
  split; [now rewrite Hu|].
  exact (proj1 (Hr (Sample.req GET "/products/42" ∅ None) eq_refl) eq_refl).
Defined.

(** X2: what is created can be read.  After a POST that succeeds, on a
    store whose sequence is not below -1, a GET on the path of the
    [Location] header is answered 200 with the body the POST returned, and
    leaves the store as the POST left it. *)
Theorem created_product_is_readable (request : Request) (app : App)
    (data : json) (product : Product.t) :
  headers request !! "Content-Type" = Some "application/json" ->
  json_body request = Some data ->
  Product.deserialize Product.new data = Ok product ->
  -1 <= Product.last_id (db app) ->
  let i := Product.last_id (db app) + 1 in
  let app' := snd (create_products request app) in
  exists resp,
    fst (create_products request app) = Ok resp
    /\ response_headers resp !! "Location"
       = Some (url_scheme request ++ "://" ++ host request ++
               "/products/" ++ str_int i)
    /\ forall request',
         method request' = GET ->
         path request' = "/products/" ++ str_int i ->
         fst (wsgi_app request' app') = Ok (mkResponse (body resp) 200 ∅)
         /\ db (snd (wsgi_app request' app')) = db app'.
Proof.
  intros Hh Hb Hd Hl i app'. subst app'. rewrite create_products_run. cbn zeta.
  rewrite Hh, Hb, Hd. cbn [String.eqb Ascii.eqb Bool.eqb fst snd].
  eexists. split; [reflexivity|]. split; [apply lookup_singleton_eq|].
  intros request' Hm Hp. unfold wsgi_app.
  rewrite (dispatch_product request' i) by (subst i; lia || assumption).
  rewrite Hm, get_products_run. cbn zeta. unfold Product.find. cbn [db].
  cbn [Product.create snd Product.rows]. fold i. rewrite lookup_insert_eq.
  split; reflexivity.
Qed.

Lemma created_product_is_readable_witness :
  fst (wsgi_app (Sample.req GET "/products/1" ∅ None)
         (snd (create_products Sample.post_widget Sample.app0)))
  = Ok (mkResponse (Product.serialize Sample.widget1) 200 ∅).
Proof.
  destruct (created_product_is_readable Sample.post_widget Sample.app0
              Sample.widget
              (Product.mk None (Some "Widget") (Some "AB123CD")
                 (Some "basic widget") (Some (Price.mkDecimal 999 2))
                 (Some "http://x/img.png"))
              eq_refl eq_refl eq_refl ltac:(cbn; lia))
    as (resp & Hc & Hl & Hr).
  injection Hc as <-.
  exact (proj1 (Hr (Sample.req GET "/products/1" ∅ None) eq_refl eq_refl)).
Defined.

(** X3: what is updated can be read.  After a PUT that succeeds on a
    well-formed store, the Read handler answers 200 for the same id with
    the body the PUT returned. *)
Theorem updated_product_is_readable (request : Request) (product_id : Z)
    (app : App) (resp : Response) :
  Product.wf (db app) ->
  fst (update_products request product_id app) = Ok resp ->
  fst (get_products product_id (snd (update_products request product_id app)))
  = Ok (mkResponse (body resp) 200 ∅).
Proof.
  intros Hwf. rewrite update_products_run. cbn zeta.
  destruct (Product.find product_id (db app)) as [p|] eqn:Hf; [|discriminate].
  destruct (headers request !! "Content-Type") as [v|]; [|discriminate].
  destruct (String.eqb v "application/json"); [|discriminate].
  destruct (json_body request) as [data|]; [|discriminate].
  destruct (Product.deserialize p data) as [p'|e] eqn:Hd; [|discriminate].
  assert (Hid : Product.id p' = Some product_id).
  { destruct (deserialize_inv _ _ _ Hd) as (-> & _). now apply Hwf in Hf. }
  unfold Product.update. rewrite Hid. cbn [fst snd]. intros [= <-].
  rewrite get_products_run. cbn zeta. unfold Product.find.
  cbn [db Product.rows body]. now rewrite lookup_insert_eq.
Qed.

Lemma updated_product_is_readable_witness :
  fst (get_products 1
         (snd (update_products
                 (Sample.req PUT "/products/1" Sample.json_header
                    (Some Sample.gadget)) 1 Sample.app1)))
  = Ok (mkResponse (Product.serialize Sample.gadget1) 200 ∅).
Proof.
  apply (updated_product_is_readable
           (Sample.req PUT "/products/1" Sample.json_header (Some Sample.gadget))
           1 Sample.app1 (mkResponse (Product.serialize Sample.gadget1) 200 ∅)).
  - apply (wf_create _ (db Sample.app0)), wf_empty.
  - reflexivity.
Defined.

(** X4: the shape of a success.  When a view returns without an abort:
    [create_products] answers 201 with exactly one header, [Location],
    which is the external URL for the id that the body carries;
    [get_products], [update_products] and [index] answer 200 with no
    header of their own. *)
Theorem success_status_and_location (request : Request) (product_id : Z)
    (app : App) (resp : Response) :
  (fst (create_products request app) = Ok resp ->
   status resp = 201
   /\ exists i,
        getitem (body resp) "id" = Some (JInt i)
        /\ response_headers resp
           = {["Location" := url_scheme request ++ "://" ++ host request ++
                             "/products/" ++ str_int i]})
  /\ (fst (get_products product_id app) = Ok resp ->
      status resp = 200 /\ response_headers resp = ∅)
  /\ (fst (update_products request product_id app) = Ok resp ->
      status resp = 200 /\ response_headers resp = ∅)
  /\ (fst (index app) = Ok resp ->
      status resp = 200 /\ response_headers resp = ∅).
Proof.
  split; [|split; [|split]].
  - rewrite create_products_run. cbn zeta.
    destruct (headers request !! "Content-Type") as [v|]; [|discriminate].
    destruct (String.eqb v "application/json"); [|discriminate].
    destruct (json_body request) as [data|]; [|discriminate].
    destruct (Product.deserialize Product.new data) as [p|e]; [|discriminate].
    cbn [fst]. intros [= <-]. split; [reflexivity|].
    exists (Product.last_id (db app) + 1). split; reflexivity.
  - rewrite get_products_run. cbn zeta.
    destruct (Product.find product_id (db app)); [|discriminate].
    cbn [fst]. intros [= <-]. split; reflexivity.
  - rewrite update_products_run. cbn zeta.
    destruct (Product.find product_id (db app)) as [p|]; [|discriminate].
    destruct (headers request !! "Content-Type") as [v|]; [|discriminate].
    destruct (String.eqb v "application/json"); [|discriminate].
    destruct (json_body request) as [data|]; [|discriminate].
    destruct (Product.deserialize p data) as [p'|e]; [|discriminate].
    destruct (Product.update p' (db app)) as [[[]|e] db']; [|discriminate].
    cbn [fst]. intros [= <-]. split; reflexivity.
  - cbn. intros [= <-]. split; reflexivity.
Qed.

Lemma success_status_and_location_witness :
  response_headers
    (mkResponse (Product.serialize Sample.widget1) 201
       {["Location" := "http://localhost/products/1"]})
  !! "Location" = Some "http://localhost/products/1"
  /\ (exists i,
        getitem (Product.serialize Sample.widget1) "id" = Some (JInt i)).
Proof.
  destruct (success_status_and_location Sample.post_widget 1 Sample.app0
              (mkResponse (Product.serialize Sample.widget1) 201
                 {["Location" := "http://localhost/products/1"]}))
    as (H & _).
  destruct (H eq_refl) as (_ & i & Hi & _).
  split; [reflexivity|]. exists i. exact Hi.
Defined.

(** X5: a request that fails changes no record.  Whatever the request,
    when it ends in an abort or an exception the store is as it was. *)
Theorem failure_changes_nothing (request : Request) (app : App) (e : Exn) :
  fst (wsgi_app request app) = Raise e ->
  db (snd (wsgi_app request app)) = db app.
Proof.
  intros Hr. destruct (wsgi_app_outcome request app) as (added & _ & H).
  destruct H as [exn _ _ H| d _ _ H | l0 l1 _ _ _ H | exn _ _ _ _ H
                | r _ H | r data p _ _ _ _ H
                | r data i p p' _ _ _ _ _ _ H];
    try assumption; rewrite Hr in H; discriminate.
Qed.

Lemma failure_changes_nothing_witness :
  db (snd (wsgi_app (Sample.req PUT "/products/1" Sample.json_header
                       (Some (JObj ∅))) Sample.app1))
  = db Sample.app1.
Proof.
  apply (failure_changes_nothing
           (Sample.req PUT "/products/1" Sample.json_header (Some (JObj ∅)))
           Sample.app1 (Product.missing "name")).
  reflexivity.
Defined.

(** X6: what it takes to write.  A request changes the store only if its
    method is POST or PUT, its [Content-Type] header is exactly
    [application/json], its body parsed as JSON, and it is answered without
    an abort. *)
Theorem store_change_requires_json (request : Request) (app : App) :
  db (snd (wsgi_app request app)) <> db app ->
  (method request = POST \/ method request = PUT)
  /\ headers request !! "Content-Type" = Some "application/json"
  /\ (exists data, json_body request = Some data)
  /\ (exists resp, fst (wsgi_app request app) = Ok resp).
Proof.
  intros Hne. destruct (wsgi_app_outcome request app) as (added & _ & H).
  destruct H as [exn _ _ H| d _ _ H | l0 l1 _ _ _ H | exn _ _ _ _ H
                | r _ _ _ _ H | r data p Hm Hh Hb _ Hr
                | r data i p p' Hm _ Hh Hb _ _ Hr];
    try contradiction; eauto 10.
Qed.

Lemma store_change_requires_json_witness :
  headers Sample.post_widget !! "Content-Type" = Some "application/json"
  /\ exists data, json_body Sample.post_widget = Some data.
Proof.
  destruct (store_change_requires_json Sample.post_widget Sample.app0)
    as (_ & Hh & Hb & _).
  - intros H. apply (f_equal Product.last_id) in H. discriminate H.
  - split; assumption.
Defined.

(** X7: the log.  A request only adds records to the log, and among the
    records it adds there is one of level ERROR exactly when it is answered
    415. *)
Theorem error_logged_iff_415 (request : Request) (app : App) :
  exists added,
    log (snd (wsgi_app request app)) = (log app ++ added)%list
    /\ (Exists (fun l => level l = ERROR) added
        <-> status_of (fst (wsgi_app request app)) = 415).
Proof.
  destruct (wsgi_app_outcome request app) as (added & Hl & H).
  exists added. split; [assumption|].
  assert (Hinfo : Forall (fun l => level l = INFO) added ->
                  ~ Exists (fun l => level l = ERROR) added).
  { intros Hall Hex. apply Exists_exists in Hex as (l & Hin & He).
    rewrite Forall_forall in Hall. apply Hall in Hin. congruence. }
  destruct H as [exn He H _ Ha | d _ H _ Ha | l0 l1 _ _ H _ Ha _ H1
                | exn _ _ H Hs _ Ha
                | r _ H Hs _ _ Ha | r data p _ _ _ _ H Hs _ _ Ha
                | r data i p p' _ _ _ _ _ _ H Hs _ _ Ha].
  - rewrite H. subst added. split; [intros Hex; inversion Hex|].
    destruct He; subst; discriminate.
  - rewrite H. split; [intros Hex; now apply Hinfo in Hex|discriminate].
  - rewrite H. subst added. split; [reflexivity|].
    intros _. apply Exists_cons_tl, Exists_cons_hd. assumption.
  - rewrite Hs. split; [intros Hex; now apply Hinfo in Hex|discriminate].
  - rewrite H. cbn. rewrite Hs.
    split; [intros Hex; now apply Hinfo in Hex|discriminate].
  - rewrite H. cbn. rewrite Hs.
    split; [intros Hex; now apply Hinfo in Hex|discriminate].
  - rewrite H. cbn. rewrite Hs.
    split; [intros Hex; now apply Hinfo in Hex|discriminate].
Qed.

(** ** Paths that lead nowhere *)

Lemma split_slash_cons (s : string) : exists x xs, split_slash s = x :: xs.
Proof.
  induction s as [|c s (x & xs & IH)]; cbn; [eauto|].
  destruct (Ascii.eqb c "/"); [eauto|]. rewrite IH. eauto.
Qed.

Lemma split_slash_single (s x : string) : split_slash s = [x] -> x = s.
Proof.
  revert x. induction s as [|c s IH]; intros x; cbn.
  - now intros [= <-].
  - destruct (Ascii.eqb c "/").
    + destruct (split_slash_cons s) as (y & ys & ->). discriminate.
    + destruct (split_slash_cons s) as (y & ys & E). rewrite E.
      destruct ys; [|discriminate].
      intros [= <-]. f_equal. now apply IH.
Qed.

Lemma segments_products_slash (s : string) :
  segments ("/products/" ++ s) = Some ("products" :: split_slash s).
Proof.
  change ("/products/" ++ s)
    with (String "/" (String "p" (String "r" (String "o" (String "d"
           (String "u" (String "c" (String "t" (String "s"
             (String "/" s)))))))))).
  cbn [segments lstrip_slash split_slash Ascii.eqb Bool.eqb].
  destruct (split_slash_cons s) as (y & ys & ->). reflexivity.
Qed.

Lemma split_slash_run (s : string) (i : Z) :
  int_to_python s = Some i -> split_slash s = [s].
Proof.
  unfold int_to_python.
  destruct (NilZero.uint_of_string s) as [d|] eqn:E; [|discriminate].
  intros _. pose proof (NilZero.uint_of_string_nonnil s) as Hd.
  rewrite E in Hd. apply NilZero.sus in E. subst s.
  replace (NilZero.string_of_uint d) with (NilEmpty.string_of_uint d).
  - apply split_slash_digits.
  - destruct d; try reflexivity. congruence.
Qed.

(** X8: the routes are served.  A GET on [/] reaches [index]; a POST on
    [/products] reaches [create_products]; on [/products/<digits>], for any
    non-empty run of ASCII digits, leading zeros included, a GET reaches
    [get_products] and a PUT reaches [update_products], called with the
    number the digits denote in decimal, which is never negative. *)
Theorem routes_served (request : Request) (app : App) :
  (path request = "/" -> method request = GET ->
   wsgi_app request app = index app)
  /\ (path request = "/products" -> method request = POST ->
      wsgi_app request app = create_products request app)
  /\ (forall s i,
        path request = "/products/" ++ s ->
        int_to_python s = Some i ->
        0 <= i
        /\ (method request = GET ->
            wsgi_app request app = get_products i app)
        /\ (method request = PUT ->
            wsgi_app request app = update_products request i app)).
Proof.
  unfold wsgi_app, dispatch_request. split; [|split].
  - intros -> ->. reflexivity.
  - intros -> ->. reflexivity.
  - intros s i Hp Hs. split; [now apply int_to_python_nonneg in Hs|].
    rewrite Hp, segments_products_slash, (split_slash_run s i Hs).
    unfold url_map. cbn. rewrite Hs.
    split; intros ->; reflexivity.
Qed.

Lemma routes_served_witness :
  wsgi_app (Sample.req GET "/products/007" ∅ None) Sample.app1
  = get_products 7 Sample.app1
  /\ wsgi_app Sample.post_widget Sample.app0
     = create_products Sample.post_widget Sample.app0.
Proof.
  destruct (routes_served (Sample.req GET "/products/007" ∅ None) Sample.app1)
    as (_ & _ & H).
  destruct (H "007" 7 eq_refl eq_refl) as (_ & Hg & _).
  split; [exact (Hg eq_refl)|].
  exact (proj1 (proj2 (routes_served Sample.post_widget Sample.app0))
           eq_refl eq_refl).
Defined.

(** X9: methods that are not allowed.  POST, PUT, PATCH and DELETE on [/],
    GET, PUT, PATCH and DELETE on [/products] (GET is the list operation
    that the discovery document advertises), and POST, PATCH and DELETE on
    [/products/<digits>] are answered 405 with werkzeug's description, and
    the application state is untouched. *)
Theorem methods_not_allowed (request : Request) (app : App) :
  (path request = "/" ->
   method request ∈ [POST; PUT; PATCH; DELETE] ->
   wsgi_app request app
   = (Raise (HTTPException 405
               "The method is not allowed for the requested URL."), app))
  /\ (path request = "/products" ->
      method request ∈ [GET; PUT; PATCH; DELETE] ->
      wsgi_app request app
      = (Raise (HTTPException 405
                  "The method is not allowed for the requested URL."), app))
  /\ (forall s i,
        path request = "/products/" ++ s ->
        int_to_python s = Some i ->
        method request ∈ [POST; PATCH; DELETE] ->
        wsgi_app request app
        = (Raise (HTTPException 405
                    "The method is not allowed for the requested URL."), app)).
Proof.
  unfold wsgi_app, dispatch_request. split; [|split].
  - intros -> Hm. rewrite !elem_of_cons, elem_of_nil in Hm.
    destruct Hm as [-> | [-> | [-> | [-> | []]]]]; reflexivity.
  - intros -> Hm. rewrite !elem_of_cons, elem_of_nil in Hm.
    destruct Hm as [-> | [-> | [-> | [-> | []]]]]; reflexivity.
  - intros s i Hp Hs Hm.
    rewrite Hp, segments_products_slash, (split_slash_run s i Hs).
    unfold url_map. cbn. rewrite Hs.
    rewrite !elem_of_cons, elem_of_nil in Hm.
    destruct Hm as [-> | [-> | [-> | []]]]; reflexivity.
Qed.

Lemma methods_not_allowed_witness :
  wsgi_app (Sample.req GET "/products" ∅ None) Sample.app1
  = (Raise (HTTPException 405
              "The method is not allowed for the requested URL."), Sample.app1)
  /\ wsgi_app (Sample.req POST "/products/1" Sample.json_header
                 (Some Sample.widget)) Sample.app1
     = (Raise (HTTPException 405
                 "The method is not allowed for the requested URL."),
        Sample.app1).
Proof.
  split.
  - apply (proj1 (proj2 (methods_not_allowed
                           (Sample.req GET "/products" ∅ None) Sample.app1)));
      [reflexivity|]. apply list_elem_of_here.
  - apply (proj2 (proj2 (methods_not_allowed
                           (Sample.req POST "/products/1" Sample.json_header
                              (Some Sample.widget)) Sample.app1)) "1" 1);
      [reflexivity|reflexivity|]. apply list_elem_of_here.
Defined.

(** ** Decimal renderings *)

Lemma str_int_inj (i j : Z) : str_int i = str_int j -> i = j.
Proof.
  intros H.
  assert (Hp : forall z, NilZero.int_of_string (str_int z) = Some (Z.to_int z)).
  { intros z. unfold str_int. apply NilZero.isi.
    - destruct z as [|p|p]; try discriminate.
      cbn. intros [= Hz]. now apply (Unsigned.to_uint_nonnil p).
    - destruct z as [|p|p]; try discriminate.
      cbn. intros [= Hz]. now apply (Unsigned.to_uint_nonnil p). }
  pose proof (Hp i) as Hi. rewrite H, Hp in Hi. injection Hi as Hi.
  rewrite <- (DecimalZ.of_to i), <- (DecimalZ.of_to j). now rewrite Hi.
Qed.

Lemma string_app_length (a b : string) :
  String.length (a ++ b) = (String.length a + String.length b)%nat.
Proof.
  induction a as [|c a IH]; [reflexivity|].
  rewrite string_app_cons. cbn [String.length]. now rewrite IH.
Qed.

Lemma string_app_inv_tail (a b s : string) : a ++ s = b ++ s -> a = b.
Proof.
  revert b. induction a as [|c a IH]; intros [|d b] H.
  - reflexivity.
  - apply (f_equal String.length) in H.
    rewrite string_app_nil_l, string_app_cons in H. cbn [String.length] in H.
    rewrite string_app_length in H. lia.
  - apply (f_equal String.length) in H.
    rewrite string_app_nil_l, string_app_cons in H. cbn [String.length] in H.
    rewrite string_app_length in H. lia.
  - rewrite !string_app_cons in H. injection H as -> H. f_equal. now apply IH.
Qed.

(** X10: the 404 message names its id without ambiguity: the messages of
    the Read and Update handlers for two ids are the same only when the ids
    are. *)
Theorem not_found_message_names_the_id (request : Request) (i j : Z)
    (app app' : App) (description : string) :
  fst (get_products i app) = Raise (HTTPException 404 description) ->
  fst (update_products request j app') = Raise (HTTPException 404 description) ->
  i = j.
Proof.
  rewrite get_products_run, update_products_run. cbn zeta.
  destruct (Product.find i (db app)); [discriminate|].
  destruct (Product.find j (db app')).
  - destruct (headers request !! "Content-Type") as [v|]; [|discriminate].
    destruct (String.eqb v "application/json"); [|discriminate].
    destruct (json_body request) as [data|]; [|discriminate].
    destruct (Product.deserialize t data) as [p'|e] eqn:Hd.
    + destruct (Product.update p' (db app')) as [[[]|e] db'] eqn:Hu;
        [discriminate|].
      apply update_raises in Hu as (_ & m & ->). discriminate.
    + destruct (deserialize_raises _ _ _ Hd) as [m ->]. discriminate.
  - cbn [fst]. intros [= <-] [= H].
    apply String.app_inj in H. apply string_app_inv_tail in H.
    symmetry. now apply str_int_inj.
Qed.

Lemma not_found_message_names_the_id_witness :
  fst (get_products 9999 Sample.app0)
  = fst (update_products (Sample.req PUT "/products/9999" ∅ None) 9999
           Sample.app1)
  /\ 9999 = 9999.
Proof.
  split; [reflexivity|].
  exact (not_found_message_names_the_id (Sample.req PUT "/products/9999" ∅ None)
           9999 9999 Sample.app0 Sample.app1
           "Product with id '9999' was not found." eq_refl eq_refl).
Defined.

(** X11: the store stays well formed.  From a well-formed store, after any
    sequence of requests every stored product carries the id it is stored
    under and no id is ahead of the sequence; in particular this holds of
    every store the service reaches from an empty one. *)
Theorem serve_wf (requests : list Request) (app : App) :
  Product.wf (db app) -> Product.wf (db (serve requests app)).
Proof.
  revert app. induction requests as [|r rs IH]; intros app Hwf; [exact Hwf|].
  cbn. apply IH. now apply wsgi_app_wf.
Qed.

Lemma serve_wf_witness :
  Product.wf (db (serve [Sample.post_widget;
                         Sample.req PUT "/products/1" Sample.json_header
                           (Some Sample.gadget);
                         Sample.post_widget] Sample.app0)).
Proof. apply serve_wf. apply wf_empty. Defined.

(** X12: a POST leaves what is stored alone.  On a well-formed store, every
    product that could be found before a POST request is found unchanged
    after it, whatever the request and however it ends. *)
Theorem post_keeps_stored_products (request : Request) (app : App) (j : Z)
    (product : Product.t) :
  Product.wf (db app) ->
  method request = POST ->
  Product.find j (db app) = Some product ->
  Product.find j (db (snd (wsgi_app request app))) = Some product.
Proof.
  intros Hwf Hm Hf. destruct (wsgi_app_outcome request app) as (added & _ & H).
  destruct H as [exn _ _ H| d _ _ H | l0 l1 _ _ _ H | exn _ _ _ _ H
                | r _ _ _ _ H | r data p _ _ _ _ _ _ _ H
                | r data i p p' Hm' ];
    try (rewrite H; exact Hf); [|congruence].
  rewrite H. unfold Product.find in *. cbn [Product.create snd Product.rows].
  rewrite lookup_insert_ne; [exact Hf|]. apply Hwf in Hf. lia.
Qed.

Lemma post_keeps_stored_products_witness :
  Product.find 1 (db (snd (wsgi_app Sample.post_widget Sample.app1)))
  = Some Sample.widget1.
Proof.
  apply post_keeps_stored_products; [|reflexivity|reflexivity].
  apply (wf_create _ (db Sample.app0)), wf_empty.
Defined.

(** X13: a PUT touches one product.  On a well-formed store, the Update
    handler for an id leaves every other product as it was, and neither
    adds nor removes the product of that id, whatever the request and
    however it ends. *)
Theorem update_products_frame (request : Request) (product_id : Z) (app : App) :
  Product.wf (db app) ->
  let app' := snd (update_products request product_id app) in
  (forall j, j <> product_id ->
     Product.find j (db app') = Product.find j (db app))
  /\ (is_Some (Product.find product_id (db app'))
      <-> is_Some (Product.find product_id (db app)))
  /\ Product.last_id (db app') = Product.last_id (db app).
Proof.
  intros Hwf app'. subst app'. rewrite update_products_run. cbn zeta.
  destruct (Product.find product_id (db app)) as [p|] eqn:Hf;
    [|cbn [snd db]; rewrite Hf; repeat split; auto].
  destruct (headers request !! "Content-Type") as [v|];
    [|cbn [snd db]; rewrite Hf; repeat split; auto].
  destruct (String.eqb v "application/json");
    [|cbn [snd db]; rewrite Hf; repeat split; auto].
  destruct (json_body request) as [data|];
    [|cbn [snd db]; rewrite Hf; repeat split; auto].
  destruct (Product.deserialize p data) as [p'|e] eqn:Hd;
    [|cbn [snd db]; rewrite Hf; repeat split; auto].
  assert (Hid : Product.id p' = Some product_id).
  { destruct (deserialize_inv _ _ _ Hd) as (-> & _). now apply Hwf in Hf. }
  unfold Product.update. rewrite Hid. cbn [snd db]. unfold Product.find in *.
  cbn [Product.rows Product.last_id]. split; [|split; [|reflexivity]].
  - intros j Hj. now rewrite lookup_insert_ne.
  - rewrite lookup_insert_eq. split; eauto.
Qed.

Lemma update_products_frame_witness :
  Product.find 2
    (db (snd (update_products
                (Sample.req PUT "/products/1" Sample.json_header
                   (Some Sample.gadget)) 1 Sample.app1)))
  = Product.find 2 (db Sample.app1).
Proof.
  refine (proj1 (update_products_frame
                   (Sample.req PUT "/products/1" Sample.json_header
                      (Some Sample.gadget)) 1 Sample.app1 _) 2 _).
  - apply (wf_create _ (db Sample.app0)), wf_empty.
  - discriminate.
Defined.

Lemma deserialize_again (self : Product.t) (data : json) (p : Product.t) :
  Product.deserialize self data = Ok p -> Product.deserialize p data = Ok p.
Proof.
  unfold Product.deserialize. destruct data; try discriminate.
  unfold mbind, mret, Result_bind, Result_ret.
  destruct (Product.str_field _ "name") as [n|]; [|discriminate].
  destruct (Product.str_field _ "sku") as [s|]; [|discriminate].
  destruct (Product.str_field _ "description") as [d|]; [|discriminate].
  destruct (Product.price_field _ "price") as [pr|]; [|discriminate].
  unfold Product.opt_str_field.
  destruct (getitem _ "image_url") as [[]|]; try discriminate;
    intros [= <-]; reflexivity.
Qed.

(** X14: a PUT can be repeated.  On a well-formed store, sending the same
    PUT a second time gets the answer of the first and leaves the store as
    the first left it. *)
Theorem update_products_idempotent (request : Request) (product_id : Z)
    (app : App) :
  Product.wf (db app) ->
  let once := update_products request product_id app in
  let twice := update_products request product_id (snd once) in
  fst twice = fst once /\ db (snd twice) = db (snd once).
Proof.
  intros Hwf once twice. subst once twice.
  rewrite !update_products_run. cbn zeta.
  destruct (Product.find product_id (db app)) as [p|] eqn:Hf;
    [|cbn [snd db]; rewrite Hf; split; reflexivity].
  destruct (headers request !! "Content-Type") as [v|] eqn:Hh;
    [|cbn [snd db]; rewrite Hf; split; reflexivity].
  destruct (String.eqb v "application/json") eqn:Hv;
    [|cbn [snd db]; rewrite Hf; split; reflexivity].
  destruct (json_body request) as [data|] eqn:Hb;
    [|cbn [snd db]; rewrite Hf; split; reflexivity].
  destruct (Product.deserialize p data) as [p'|e] eqn:Hd;
    [|cbn [snd db]; rewrite Hf, Hd; split; reflexivity].
  assert (Hid : Product.id p' = Some product_id).
  { destruct (deserialize_inv _ _ _ Hd) as (-> & _). now apply Hwf in Hf. }
  unfold Product.update. rewrite Hid. cbn [snd db fst].
  unfold Product.find. cbn [Product.rows]. rewrite lookup_insert_eq.
  rewrite (deserialize_again _ _ _ Hd), Hid. cbn [fst snd db Product.rows Product.last_id].
  split; [reflexivity|]. now rewrite insert_insert_eq.
Qed.

Lemma update_products_idempotent_witness :
  db (snd (update_products
             (Sample.req PUT "/products/1" Sample.json_header (Some Sample.gadget))
             1
             (snd (update_products
                     (Sample.req PUT "/products/1" Sample.json_header
                        (Some Sample.gadget)) 1 Sample.app1))))
  = db (snd (update_products
               (Sample.req PUT "/products/1" Sample.json_header
                  (Some Sample.gadget)) 1 Sample.app1)).
Proof.
  refine (proj2 (update_products_idempotent
                   (Sample.req PUT "/products/1" Sample.json_header
                      (Some Sample.gadget)) 1 Sample.app1 _)).
  apply (wf_create _ (db Sample.app0)), wf_empty.
Defined.

(** X15: an id that is not a number is not found.  When what follows
    [/products/] is made of visible ASCII characters other than the slash
    and is not a run of digits (a negative number, a word, a decimal
    fraction, nothing at all), the request is answered 404 by the router
    with werkzeug's description, whatever its method, and the application
    state is untouched. *)
Theorem non_numeric_id_not_found (request : Request) (app : App) (s : string) :
  path request = "/products/" ++ s ->
  Forall graphic (list_ascii_of_string s) ->
  int_to_python s = None ->
  wsgi_app request app
  = (Raise (HTTPException 404
              "The requested URL was not found on the server. If you entered the URL manually please check your spelling and try again."),
     app).
Proof.
  intros Hp _ Hs. unfold wsgi_app, dispatch_request.
  rewrite Hp, segments_products_slash.
  destruct (split_slash_cons s) as (y & ys & Hy). rewrite Hy.
  unfold url_map. cbn.
  destruct ys as [|z ys].
  - apply split_slash_single in Hy. subst y. rewrite Hs. reflexivity.
  - destruct (int_to_python y); reflexivity.
Qed.

Lemma non_numeric_id_not_found_witness :
  status_of (fst (wsgi_app (Sample.req GET "/products/-1" ∅ None) Sample.app1))
  = 404
  /\ snd (wsgi_app (Sample.req PUT "/products/widget" Sample.json_header
                      (Some Sample.gadget)) Sample.app1)
     = Sample.app1.
Proof.
  split.
  - rewrite (non_numeric_id_not_found (Sample.req GET "/products/-1" ∅ None)
               Sample.app1 "-1" eq_refl); [reflexivity| |reflexivity].
    repeat constructor; cbn; try lia; discriminate.
  - rewrite (non_numeric_id_not_found
               (Sample.req PUT "/products/widget" Sample.json_header
                  (Some Sample.gadget)) Sample.app1 "widget" eq_refl);
      [reflexivity| |reflexivity].
    repeat constructor; cbn; try lia; discriminate.
Defined.
